(** * Archive discovery on local storage volumes (kiwix-js)

    A shallow embedding of [www/js/lib/osabstraction.js] (the two storage
    back ends, [StorageFirefoxOS] and [StoragePhoneGap]) and of
    [abstractBackend.js] (the archive-source resolver and the multi-volume
    scan), followed by the properties of the specification that concern
    them.

    JavaScript strings are modelled as [string] (sequences of 8-bit
    characters), arrays as [list], promises by their state, and the
    call-backs of the asynchronous back ends by the events they deliver. *)

From Stdlib Require Import Bool Arith ZArith Lia List String Ascii.
From Stdlib Require Import Permutation DecimalString.
Import ListNotations.

Local Open Scope string_scope.
Local Open Scope list_scope.

(* ===================================================================== *)
(** * JavaScript primitives used by the sources *)
(* ===================================================================== *)

Module JS.

(** [s.length] *)
Definition length (s : string) : Z := Z.of_nat (String.length s).

(** [s.substr(start, length)] for a non-negative [start]: at most
    [length] characters from index [start]. *)
Definition substr (s : string) (start len : nat) : string :=
  String.substring start len s.

(** [s.substr(start)]: everything from index [start] on. *)
Definition substr_from (s : string) (start : nat) : string :=
  String.substring start (String.length s - start) s.

(** [s.substring(start, end)]: both indices are clamped to
    [0 .. s.length] and swapped when [start > end]. *)
Definition substring (s : string) (start end_ : Z) : string :=
  let clamp i := Z.to_nat (Z.min (Z.max i 0) (length s)) in
  let a := Nat.min (clamp start) (clamp end_) in
  let b := Nat.max (clamp start) (clamp end_) in
  String.substring a (b - a) s.

(** Position of the last occurrence of [c] in [s], counted from index
    [i] of the whole string, as an [option]. *)
Fixpoint lastIndexOf_from (i : nat) (s : string) (c : ascii) : option nat :=
  match s with
  | EmptyString => None
  | String a s' =>
      match lastIndexOf_from (S i) s' c with
      | Some j => Some j
      | None => if Ascii.eqb a c then Some i else None
      end
  end.

(** [s.lastIndexOf(c)] for a one-character [c]: [-1] when absent. *)
Definition lastIndexOf (s : string) (c : ascii) : Z :=
  match lastIndexOf_from 0 s c with
  | Some j => Z.of_nat j
  | None => (-1)%Z
  end.

(** [s[i]]: [None] stands for [undefined]. *)
Definition charAt (s : string) (i : Z) : option ascii :=
  if (i <? 0)%Z then None else String.get (Z.to_nat i) s.

(** Number to string conversion of an integer, as [+] applies it. *)
Definition numberToString (z : Z) : string :=
  NilZero.string_of_int (Z.to_int z).

Definition isLowerAscii (c : ascii) : bool :=
  let n := nat_of_ascii c in ((97 <=? n) && (n <=? 122))%nat.

Definition isUpperAscii (c : ascii) : bool :=
  let n := nat_of_ascii c in ((65 <=? n) && (n <=? 90))%nat.

(** [Canonicalize] of a regular expression with the [i] flag: the
    character is upper-cased; a character outside ASCII never
    canonicalizes to an ASCII one, and is kept here. *)
Definition canonicalize (c : ascii) : ascii :=
  if isLowerAscii c then ascii_of_nat (nat_of_ascii c - 32) else c.

Definition toLowerCaseChar (c : ascii) : ascii :=
  if isUpperAscii c then ascii_of_nat (nat_of_ascii c + 32) else c.

(** [s.toLowerCase()] on the ASCII letters. *)
Fixpoint toLowerCase (s : string) : string :=
  match s with
  | EmptyString => EmptyString
  | String a s' => String (toLowerCaseChar a) (toLowerCase s')
  end.

(** ** The fragment of regular expressions the sources use

    Literal characters, sequencing, an optional group and the end
    anchor [$] (without the [m] flag: end of input only). *)
Inductive regex : Type :=
| RChar (c : ascii)
| RSeq (r1 r2 : regex)
| ROpt (r : regex)
| REnd.

Definition charMatches (ignoreCase : bool) (a c : ascii) : bool :=
  if ignoreCase then Ascii.eqb (canonicalize a) (canonicalize c)
  else Ascii.eqb a c.

(** Backtracking matcher in continuation style: [k] receives the rest of
    the input after a match of [r] at the head of [s]. *)
Fixpoint rmatch (ignoreCase : bool) (r : regex) (s : string)
         (k : string -> bool) : bool :=
  match r with
  | RChar c =>
      match s with
      | String a s' => if charMatches ignoreCase a c then k s' else false
      | EmptyString => false
      end
  | RSeq r1 r2 => rmatch ignoreCase r1 s (fun s' => rmatch ignoreCase r2 s' k)
  | ROpt r1 => rmatch ignoreCase r1 s k || k s
  | REnd =>
      match s with
      | EmptyString => k s
      | String _ _ => false
      end
  end.

(** [re.test(s)] for a regular expression without the [g] flag: a match
    starting at some index of [s]. *)
Fixpoint test (ignoreCase : bool) (r : regex) (s : string) : bool :=
  rmatch ignoreCase r s (fun _ => true)
  || match s with
     | EmptyString => false
     | String _ s' => test ignoreCase r s'
     end.

(** ** Results of asynchronous operations *)

(** A DOM error object, as DeviceStorage requests report it. *)
Module DOMError.
Record t : Type := mk { name : string; message : string }.
End DOMError.

(** A file object; only its name is read. *)
Module File.
Record t : Type := mk { name : string }.
End File.

(** The values the storages reject their promises with. *)
Inductive Reason : Type :=
| VString (s : string)
| VDOMError (e : DOMError.t).

(** State of a promise (of a deferred). *)
Inductive Promise (A : Type) : Type :=
| Pending
| Resolved (value : A)
| Rejected (reason : Reason).
Arguments Pending {A}.
Arguments Resolved {A} value.
Arguments Rejected {A} reason.

(** [deferred.resolve(v)] and [deferred.reject(r)]: a promise settles
    once; later calls leave it as it is. *)
Definition resolve {A} (d : Promise A) (v : A) : Promise A :=
  match d with Pending => Resolved v | _ => d end.

Definition reject {A} (d : Promise A) (r : Reason) : Promise A :=
  match d with Pending => Rejected r | _ => d end.

End JS.

(* ===================================================================== *)
(** * util.js *)
(* ===================================================================== *)

Module util.

(** Modelled from the spec: [util.endsWith(str, suffix)] lives in
    [util.js]; the specification reads it as "[str] is named with suffix
    [suffix]", a case-sensitive suffix test. *)
Fixpoint endsWith (str suffix : string) : bool :=
  String.eqb str suffix
  || match str with
     | EmptyString => false
     | String _ str' => endsWith str' suffix
     end.

End util.

(* ===================================================================== *)
(** * osabstraction.js: StorageFirefoxOS *)
(* ===================================================================== *)

(** The DeviceStorage API of Firefox OS, by the events it delivers. *)
Module DeviceStorage.
Import JS.

(** A DOMRequest fires [onsuccess] or [onerror], or nothing at all. *)
Inductive DOMRequest (A : Type) : Type :=
| OnSuccess (result : A)
| OnError (error : DOMError.t)
| NoEvent.
Arguments OnSuccess {A} result.
Arguments OnError {A} error.
Arguments NoEvent {A}.

(** One step of a DOMCursor: [onsuccess] with [cursor.result] (a file, or
    nothing at the end of the enumeration), or [onerror]. *)
Inductive CursorEvent : Type :=
| CursorSuccess (result : option File.t)
| CursorError (error : DOMError.t).

(** A DOMCursor is the sequence of events it fires, the next one after
    each [cursor.continue()]. *)
Definition DOMCursor : Type := list CursorEvent.

Record t : Type := mk {
  storageName : string;
  get : string -> DOMRequest File.t;
  (** [enumerate(path)]; [None] is the call without argument *)
  enumerate : option string -> DOMCursor
}.

End DeviceStorage.

Module StorageFirefoxOS.
Import JS.
Import DeviceStorage(DOMRequest, OnSuccess, OnError, NoEvent,
                     CursorEvent, CursorSuccess, CursorError, DOMCursor).

Record t : Type := mk {
  _storage : DeviceStorage.t;
  storageName : string
}.

(** [function StorageFirefoxOS(storage)] *)
Definition StorageFirefoxOS (storage : DeviceStorage.t) : t :=
  {| _storage := storage;
     storageName := DeviceStorage.storageName storage |}.

(** [StorageFirefoxOS.prototype.get] *)
Definition get (this : t) (path : string) : Promise File.t :=
  let deferred := Pending in
  match DeviceStorage.get (_storage this) path with
  | OnSuccess result => resolve deferred result
  | OnError error => reject deferred (VString (DOMError.name error))
  | NoEvent => deferred
  end.

(** [/\.zim(aa)?$/i] *)
Definition regexpZIMFileName : regex :=
  RSeq (RChar ".") (RSeq (RChar "z") (RSeq (RChar "i") (RSeq (RChar "m")
    (RSeq (ROpt (RSeq (RChar "a") (RChar "a"))) REnd)))).

Definition regexpZIMFileName_test (s : string) : bool :=
  test true regexpZIMFileName s.

(** The variables [scanForArchives] closes over. *)
Record ScanState : Type := mkScan {
  directories : list string;
  deferred : Promise (list string)
}.

(** What the body of [cursor.onsuccess] pushes for a file. *)
Definition pushed (file : File.t) : list string :=
  if util.endsWith (File.name file) "titles.idx" then
    let directory := "/" in
    let directory :=
      if negb (lastIndexOf (File.name file) "/" =? -1)%Z then
        substring (File.name file) 0
                  (lastIndexOf (File.name file) "/" + 1)%Z
      else directory in
    [directory]
  else if regexpZIMFileName_test (File.name file) then
    [File.name file]
  else [].

(** [cursor.onsuccess]; the boolean tells whether [cursor.continue()] was
    called. *)
Definition onsuccess (result : option File.t) (st : ScanState)
  : ScanState * bool :=
  match result with
  | None =>
      (mkScan (directories st) (resolve (deferred st) (directories st)),
       false)
  | Some file =>
      (mkScan (directories st ++ pushed file) (deferred st), true)
  end.

(** [cursor.onerror] *)
Definition onerror (error : DOMError.t) (st : ScanState)
  : ScanState * bool :=
  (mkScan (directories st) (reject (deferred st) (VDOMError error)), false).

(** The cursor delivers its next event only after [cursor.continue()]. *)
Fixpoint drive (cursor : DOMCursor) (st : ScanState) : ScanState :=
  match cursor with
  | [] => st
  | ev :: rest =>
      let '(st', continued) :=
        match ev with
        | CursorSuccess result => onsuccess result st
        | CursorError error => onerror error st
        end in
      if continued then drive rest st' else st'
  end.

(** [StorageFirefoxOS.prototype.scanForArchives] *)
Definition scanForArchives (this : t) : Promise (list string) :=
  let cursor := DeviceStorage.enumerate (_storage this) None in
  deferred (drive cursor (mkScan [] Pending)).

(** [StorageFirefoxOS.prototype.enumerate] *)
Definition enumerate (this : t) (path : string) : DOMCursor :=
  DeviceStorage.enumerate (_storage this) None.

End StorageFirefoxOS.

(* ===================================================================== *)
(** * osabstraction.js: StoragePhoneGap *)
(* ===================================================================== *)

(** The HTML5 FileError object and its error-code constants, which the
    platform provides. *)
Module FileError.

Record t : Type := mk { code : Z }.

Record constants : Type := mkConstants {
  QUOTA_EXCEEDED_ERR : Z;
  NOT_FOUND_ERR : Z;
  SECURITY_ERR : Z;
  INVALID_MODIFICATION_ERR : Z;
  INVALID_STATE_ERR : Z
}.

(** The values of the File API. *)
Definition html5 : constants :=
  {| QUOTA_EXCEEDED_ERR := 10;
     NOT_FOUND_ERR := 1;
     SECURITY_ERR := 2;
     INVALID_MODIFICATION_ERR := 9;
     INVALID_STATE_ERR := 7 |}.

End FileError.

(** The file-system API of PhoneGap, by the call-backs it makes. *)
Module FileSystem.

(** An operation calls its success call-back, its error call-back, or
    neither. *)
Inductive Callback (A : Type) : Type :=
| Success (value : A)
| Failure (error : FileError.t)
| NoCallback.
Arguments Success {A} value.
Arguments Failure {A} error.
Arguments NoCallback {A}.

(** A directory is what [createReader().readEntries] reports for it;
    an entry is a file ([isDirectory] false) or a directory. *)
Inductive DirectoryEntry : Type :=
| mkDirectoryEntry (name fullPath : string)
                   (readEntries : Callback (list Entry))
with Entry : Type :=
| IsFile (name : string)
| IsDirectory (d : DirectoryEntry).

Definition fullPath (d : DirectoryEntry) : string :=
  match d with mkDirectoryEntry _ p _ => p end.

Definition readEntries (d : DirectoryEntry) : Callback (list Entry) :=
  match d with mkDirectoryEntry _ _ r => r end.

(** Number of directories in a tree: the listing calls a full walk
    makes. *)
Fixpoint countDirectories (d : DirectoryEntry) : nat :=
  match d with
  | mkDirectoryEntry _ _ r =>
      S (match r with
         | Success entries =>
             (fix go (l : list Entry) : nat :=
                match l with
                | [] => 0
                | IsFile _ :: l' => go l'
                | IsDirectory d' :: l' => countDirectories d' + go l'
                end) entries
         | _ => 0
         end)
  end.

Record Flags : Type := mkFlags { create : bool; exclusive : bool }.

(** [fileEntry.file(success, error)] *)
Record FileEntry : Type := mkFileEntry { file : Callback JS.File.t }.

Record t : Type := mk {
  root : DirectoryEntry;
  (** [root.getFile(path, options, success, error)] *)
  getFile : string -> Flags -> Callback FileEntry
}.

End FileSystem.

Module StoragePhoneGap.
Import JS.
Import FileSystem(Callback, Success, Failure, NoCallback, DirectoryEntry,
                  mkDirectoryEntry, Entry, IsFile, IsDirectory, Flags,
                  mkFlags, FileEntry).

Record t : Type := mk {
  _storage : FileSystem.t;
  storageName : string
}.

(** [function StoragePhoneGap(storage)] *)
Definition StoragePhoneGap (storage : FileSystem.t) : t :=
  {| _storage := storage; storageName := "PhoneGapStorage" |}.

Section WithFileError.

(** The constants of the global [FileError]. *)
Variable FileError : FileError.constants.

(** [StoragePhoneGap.prototype._errorCodeToString]: a [switch], the first
    equal case wins. *)
Definition _errorCodeToString (code : Z) : string :=
  if (code =? FileError.(FileError.QUOTA_EXCEEDED_ERR))%Z then
    "QUOTA_EXCEEDED_ERR"
  else if (code =? FileError.(FileError.NOT_FOUND_ERR))%Z then
    "NOT_FOUND_ERR"
  else if (code =? FileError.(FileError.SECURITY_ERR))%Z then
    "SECURITY_ERR"
  else if (code =? FileError.(FileError.INVALID_MODIFICATION_ERR))%Z then
    "INVALID_MODIFICATION_ERR"
  else if (code =? FileError.(FileError.INVALID_STATE_ERR))%Z then
    "INVALID_STATE_ERR"
  else "Unknown Error".

(** What one call of [get] does: the lines written to the console, the
    arguments handed to [root.getFile], and the promise returned. *)
Record GetRun : Type := mkGetRun {
  console : list string;
  request : string * Flags;
  promise : Promise File.t
}.

(** [StoragePhoneGap.prototype.get] *)
Definition get (this : t) (path : string) : GetRun :=
  let log0 := ["Trying to access " ++ path]%string in
  let deferred := Pending in
  let onError (log : list string) (error : FileError.t) :=
    (log ++ ["Error code: " ++ numberToString (FileError.code error)]%string,
     reject deferred (VString (_errorCodeToString (FileError.code error)))) in
  let options := mkFlags false false in
  let path :=
    if String.eqb (substr path 0 7) "file://" then substr_from path 7
    else path in
  let '(log, p) :=
    match FileSystem.getFile (_storage this) path options with
    | Success fileEntry =>
        match FileSystem.file fileEntry with
        | Success file => (log0, resolve deferred file)
        | Failure error => onError log0 error
        | NoCallback => (log0, deferred)
        end
    | Failure error => onError log0 error
    | NoCallback => (log0, deferred)
    end in
  mkGetRun log (path, options) p.

(** The variables [scanForArchives] closes over, and the directories
    whose listing was requested so far. The head of [stack] is the top
    (the last element of the array). *)
Record ScanState : Type := mkScan {
  directories : list string;
  stack : list DirectoryEntry;
  deferred : Promise (list string);
  listed : list DirectoryEntry
}.

(** What the [for] loop of [dirReaderSuccess] pushes onto [directories]
    for a file named [name] listed in [dir]. *)
Definition pushed (dir : DirectoryEntry) (name : string) : list string :=
  if util.endsWith name "titles.idx" then
    let path := FileSystem.fullPath dir in
    let path :=
      if (JS.length path =? 0)%Z
         || negb (match charAt path (JS.length path - 1)%Z with
                  | Some c => Ascii.eqb c "/"
                  | None => false
                  end)
      then (path ++ "/")%string else path in
    [path]
  else if util.endsWith name ".zim" then
    [(FileSystem.fullPath dir ++ "/" ++ name)%string]
  else [].

(** One turn of the [for] loop of [dirReaderSuccess]. *)
Definition visit (dir : DirectoryEntry) (st : ScanState) (entry : Entry)
  : ScanState :=
  match entry with
  | IsDirectory d =>
      mkScan (directories st) (d :: stack st) (deferred st) (listed st)
  | IsFile name =>
      mkScan (directories st ++ pushed dir name) (stack st) (deferred st)
             (listed st)
  end.

(** [dirReaderSuccess], up to its call of [iteration]. It runs only as
    the call-back of a listing of the top of a non-empty stack. *)
Definition dirReaderSuccess (st : ScanState) (entries : list Entry)
  : ScanState :=
  match stack st with
  | [] => st
  | dir :: stack' =>
      fold_left (visit dir) entries
        (mkScan (directories st) stack' (deferred st) (listed st))
  end.

(** [dirReaderFail] *)
Definition dirReaderFail (st : ScanState) (error : FileError.t)
  : ScanState :=
  mkScan (directories st) (stack st)
         (reject (deferred st)
                 (VString (_errorCodeToString (FileError.code error))))
         (listed st).

(** [iteration]: each unit of [fuel] pays for one listing call. *)
Fixpoint iteration (fuel : nat) (st : ScanState) : option ScanState :=
  match fuel with
  | O => None
  | S fuel' =>
      match stack st with
      | [] =>
          Some (mkScan (directories st) (stack st)
                       (resolve (deferred st) (directories st)) (listed st))
      | top :: _ =>
          let st1 := mkScan (directories st) (stack st) (deferred st)
                            (listed st ++ [top]) in
          match FileSystem.readEntries top with
          | Success entries => iteration fuel' (dirReaderSuccess st1 entries)
          | Failure error => Some (dirReaderFail st1 error)
          | NoCallback => Some st1
          end
      end
  end.

Definition start (this : t) : ScanState :=
  mkScan [] [FileSystem.root (_storage this)] Pending [].

(** The whole run of [scanForArchives]; the walk lists every directory at
    most once, and the fuel allows for that. *)
Definition run (this : t) : option ScanState :=
  iteration (S (FileSystem.countDirectories (FileSystem.root (_storage this))))
            (start this).

(** [StoragePhoneGap.prototype.scanForArchives] *)
Definition scanForArchives (this : t) : Promise (list string) :=
  match run this with
  | Some st => deferred st
  | None => Pending
  end.

End WithFileError.

End StoragePhoneGap.

(* ===================================================================== *)
(** * abstractBackend.js *)
(* ===================================================================== *)

(** What the functions of jQuery used by [scanForArchives] do. *)
Module jQuery.

(** Modelled from the spec: [jQuery.merge(first, second)] is in the jQuery
    library; it appends the elements of [second] to the array [first]
    ("each volume's contribution is appended once"). *)
Definition merge {A} (first second : list A) : list A := first ++ second.

(** Modelled from the spec: the deferred behind [jQuery.when] is in the
    jQuery library. It "resolves only if every volume's scan resolves; if
    any single volume's scan rejects, the aggregate operation rejects with
    that error (first rejection wins)". *)
Inductive Master : Type :=
| MasterPending
| MasterResolved
| MasterRejected (error : JS.Reason).

End jQuery.

Module AbstractBackend.
Import JS.

(** The storages handed to the back end are of either kind. *)
Inductive Storage : Type :=
| FirefoxOS (s : StorageFirefoxOS.t)
| PhoneGap (s : StoragePhoneGap.t).

(** The archive objects of the archive subsystem, by the way they were
    constructed. *)
Inductive Archive : Type :=
| ZIMArchive (storage : Storage) (path : string)
  (** [new zimArchive.ZIMArchive(storage, path)] *)
| LocalArchive_initializeFromDeviceStorage (storage : Storage) (path : string)
  (** [new evopediaArchive.LocalArchive()], then
      [initializeFromDeviceStorage(storage, path)] *)
| LocalArchive_initializeFromArchiveFiles (files : list File.t)
  (** [new evopediaArchive.LocalArchive()], then
      [initializeFromArchiveFiles(files)] *).

(** [loadArchiveFromDeviceStorage] *)
Definition loadArchiveFromDeviceStorage (storage : Storage) (path : string)
  : Archive :=
  if util.endsWith path ".zim" then ZIMArchive storage path
  else LocalArchive_initializeFromDeviceStorage storage path.

(** [loadArchiveFromFiles] *)
Definition loadArchiveFromFiles (files : list File.t) : Archive :=
  LocalArchive_initializeFromArchiveFiles files.

(** What [scanForArchives] does to the outside. *)
Inductive Effect : Type :=
| Alert (message : string)
| CallbackFunction (directories : option (list string)).

Section Scan.

Variable FileError : FileError.constants.

(** String conversion of a DOM error object, which the platform does. *)
Variable DOMError_toString : DOMError.t -> string.

(** ["..." + error] *)
Definition toString (error : Reason) : string :=
  match error with
  | VString s => s
  | VDOMError e => DOMError_toString e
  end.

(** [storage.scanForArchives()], by the kind of the storage. *)
Definition storage_scanForArchives (storage : Storage)
  : Promise (list string) :=
  match storage with
  | FirefoxOS s => StorageFirefoxOS.scanForArchives s
  | PhoneGap s => StoragePhoneGap.scanForArchives FileError s
  end.

Definition alertMessage (error : Reason) : string :=
  ("Error scanning your SD card : " ++ toString error
   ++ ". If you're using the Firefox OS Simulator, please put the archives in "
   ++ "a 'fake-sdcard' directory inside your Firefox profile "
   ++ "(ex : ~/.mozilla/firefox/xxxx.default/extensions/fxos_2_x_simulator@mozilla.org/"
   ++ "profile/fake-sdcard/wikipedia_small_2010-08-14)")%string.

(** The variables of one call of [scanForArchives]: the shared array
    [directories], the storages whose promise has settled, the counter and
    the deferred of [jQuery.when], and what was done to the outside. *)
Record State : Type := mkState {
  directories : list string;
  settled : list nat;
  remaining : nat;
  master : jQuery.Master;
  effects : list Effect
}.

(** The first handler of the final [then]. *)
Definition onAllResolved (st : State) : State :=
  match master st with
  | jQuery.MasterPending =>
      mkState (directories st) (settled st) (remaining st)
              jQuery.MasterResolved
              (effects st ++ [CallbackFunction (Some (directories st))])
  | _ => st
  end.

(** The second handler of the final [then]. *)
Definition onRejected (error : Reason) (st : State) : State :=
  match master st with
  | jQuery.MasterPending =>
      mkState (directories st) (settled st) (remaining st)
              (jQuery.MasterRejected error)
              (effects st ++ [Alert (alertMessage error);
                              CallbackFunction None])
  | _ => st
  end.

(** The state after [jQuery.when.apply(null, promises).then(...)] has been
    set up, before any promise settles. Without promises the master
    resolves at once. *)
Definition init (promises : list (Promise (list string))) : State :=
  let st := mkState [] [] (List.length promises) jQuery.MasterPending [] in
  match promises with
  | [] => onAllResolved st
  | _ => st
  end.

(** The promise of the [i]-th storage settles. A promise settles once, and
    a pending one does not settle. On resolution the handler given to
    [then] merges its directories into the shared array and [jQuery.when]
    counts it; on rejection [jQuery.when] rejects its master. *)
Definition settle (promises : list (Promise (list string)))
           (st : State) (i : nat) : State :=
  if existsb (Nat.eqb i) (settled st) then st
  else
    match nth_error promises i with
    | Some (Resolved dirs) =>
        let st' := mkState (jQuery.merge (directories st) dirs)
                           (settled st ++ [i]) (remaining st - 1)
                           (master st) (effects st) in
        if (remaining st' =? 0)%nat then onAllResolved st' else st'
    | Some (Rejected error) =>
        onRejected error
          (mkState (directories st) (settled st ++ [i]) (remaining st)
                   (master st) (effects st))
    | _ => st
    end.

(** [scanForArchives(storages, callbackFunction)], for the order
    [arrivals] in which the promises of the storages settle (indices into
    [storages]): what has been done to the outside once they have. The
    promises are taken to be ones [jQuery.when] observes. *)
Definition aggregate (promises : list (Promise (list string)))
           (arrivals : list nat) : State :=
  fold_left (settle promises) arrivals (init promises).

Definition scanForArchives (storages : list Storage) (arrivals : list nat)
  : list Effect :=
  let promises := List.map storage_scanForArchives storages in
  effects (aggregate promises arrivals).

End Scan.

End AbstractBackend.

(* ===================================================================== *)
(** * Vocabulary of the specification *)
(* ===================================================================== *)

Module Spec.
Import JS.

(** The character [c] occurs in [s]. *)
Fixpoint occurs (c : ascii) (s : string) : bool :=
  match s with
  | EmptyString => false
  | String a s' => Ascii.eqb a c || occurs c s'
  end.

(** "A file named with suffix [titles.idx] marks an archive root
    directory." *)
Definition isMarker (name : string) : bool :=
  util.endsWith name "titles.idx".

(** "A file whose name matches [.zim] or [.zimaa] (case-insensitive)": the
    lower-cased name ends in one of the two. *)
Definition isArchiveFile (name : string) : bool :=
  util.endsWith (toLowerCase name) ".zim"
  || util.endsWith (toLowerCase name) ".zimaa".

(** A path with "a trailing separator always present, inserted if
    absent". *)
Definition withTrailingSeparator (path : string) : string :=
  if util.endsWith path "/" then path else (path ++ "/")%string.

(** The error taxonomy. *)
Inductive ErrorKind : Type :=
| NotFound
| Security
| QuotaExceeded
| InvalidState
| InvalidModification
| Unknown.

(** The kind a rejection value stands for: the storages report a kind by
    the name of its error constant, and [Unknown] by ['Unknown Error']. *)
Definition kindOf (reason : Reason) : option ErrorKind :=
  match reason with
  | VString s =>
      if String.eqb s "NOT_FOUND_ERR" then Some NotFound
      else if String.eqb s "SECURITY_ERR" then Some Security
      else if String.eqb s "QUOTA_EXCEEDED_ERR" then Some QuotaExceeded
      else if String.eqb s "INVALID_STATE_ERR" then Some InvalidState
      else if String.eqb s "INVALID_MODIFICATION_ERR"
           then Some InvalidModification
      else if String.eqb s "Unknown Error" then Some Unknown
      else None
  | VDOMError _ => None
  end.

(** The files of a tree, each with the directory that lists it, and the
    directories of a tree. *)
Definition filesOf (dir : FileSystem.DirectoryEntry)
           (entries : list FileSystem.Entry)
  : list (FileSystem.DirectoryEntry * string) :=
  flat_map (fun e => match e with
                     | FileSystem.IsFile name => [(dir, name)]
                     | FileSystem.IsDirectory _ => []
                     end) entries.

Definition subdirectories (entries : list FileSystem.Entry)
  : list FileSystem.DirectoryEntry :=
  flat_map (fun e => match e with
                     | FileSystem.IsFile _ => []
                     | FileSystem.IsDirectory d => [d]
                     end) entries.

(** The events of a cursor that reports the files [files]. *)
Definition fileEvents (files : list JS.File.t) : DeviceStorage.DOMCursor :=
  map (fun f => DeviceStorage.CursorSuccess (Some f)) files.

(** The listing of a directory succeeded. *)
Definition listedWell (d : FileSystem.DirectoryEntry) : Prop :=
  exists entries, FileSystem.readEntries d = FileSystem.Success entries.

(** The directories the [i]-th promise resolves with. *)
Definition dirsAt (promises : list (Promise (list string))) (i : nat)
  : list string :=
  match nth_error promises i with
  | Some (Resolved dirs) => dirs
  | _ => []
  end.

Definition resolvedAt (promises : list (Promise (list string))) (i : nat)
  : bool :=
  match nth_error promises i with
  | Some (Resolved _) => true
  | _ => false
  end.

(** The counter of [jQuery.when] counts the promises that have not
    resolved yet; a promise settles once. *)
Definition Counted (promises : list (Promise (list string)))
           (st : AbstractBackend.State) : Prop :=
  NoDup (AbstractBackend.settled st)
  /\ (forall j, In j (AbstractBackend.settled st) ->
                j < List.length promises)
  /\ AbstractBackend.remaining st
     + List.length (filter (resolvedAt promises)
                           (AbstractBackend.settled st))
     = List.length promises.

(** What holds of the multi-volume scan while some promise is rejected:
    nothing was done to the outside as long as the master is pending, and
    once the first rejected promise has settled the master is rejected
    with its error, after an alert and one call with [null]. *)
Definition Failing (DOMError_toString : DOMError.t -> string)
           (promises : list (Promise (list string)))
           (st : AbstractBackend.State) : Prop :=
  Counted promises st
  /\ ((AbstractBackend.master st = jQuery.MasterPending
       /\ AbstractBackend.effects st = [])
      \/ (exists k e,
            nth_error promises k = Some (Rejected e)
            /\ In k (AbstractBackend.settled st)
            /\ AbstractBackend.master st = jQuery.MasterRejected e
            /\ AbstractBackend.effects st
               = [AbstractBackend.Alert
                    (AbstractBackend.alertMessage DOMError_toString e);
                  AbstractBackend.CallbackFunction None]))
  /\ (forall j e, In j (AbstractBackend.settled st) ->
                  nth_error promises j = Some (Rejected e) ->
                  AbstractBackend.master st <> jQuery.MasterPending).

(** What [get] does after it has settled on the path to look up. *)
Definition lookup (FileError : FileError.constants) (this : StoragePhoneGap.t)
           (path : string) : Promise File.t :=
  match FileSystem.getFile (StoragePhoneGap._storage this) path
                           (FileSystem.mkFlags false false) with
  | FileSystem.Success fileEntry =>
      match FileSystem.file fileEntry with
      | FileSystem.Success file => Resolved file
      | FileSystem.Failure error =>
          Rejected (VString (StoragePhoneGap._errorCodeToString
                                     FileError (FileError.code error)))
      | FileSystem.NoCallback => Pending
      end
  | FileSystem.Failure error =>
      Rejected (VString (StoragePhoneGap._errorCodeToString
                                 FileError (FileError.code error)))
  | FileSystem.NoCallback => Pending
  end.

(** What the tree scan pushes for the files that the listing of [d]
    reports, in the order of the listing. *)
Definition emitted (d : FileSystem.DirectoryEntry) : list string :=
  match FileSystem.readEntries d with
  | FileSystem.Success entries =>
      flat_map (fun '(dir, name) => StoragePhoneGap.pushed dir name)
               (filesOf d entries)
  | _ => []
  end.

(** The directories of a tree in the order in which the stack of the tree
    scan lists them: a directory, then its sub-directories with all they
    contain, the one listed last first. *)
Fixpoint visitOrder (d : FileSystem.DirectoryEntry)
  : list FileSystem.DirectoryEntry :=
  d :: match d with
       | FileSystem.mkDirectoryEntry _ _ (FileSystem.Success entries) =>
           (fix go (l : list FileSystem.Entry)
              : list FileSystem.DirectoryEntry :=
              match l with
              | [] => []
              | FileSystem.IsFile _ :: l' => go l'
              | FileSystem.IsDirectory d' :: l' => go l' ++ visitOrder d'
              end) entries
       | _ => []
       end.

(** Every directory of the tree answers its listing with success. *)
Fixpoint allListed (d : FileSystem.DirectoryEntry) : bool :=
  match d with
  | FileSystem.mkDirectoryEntry _ _ (FileSystem.Success entries) =>
      (fix go (l : list FileSystem.Entry) : bool :=
         match l with
         | [] => true
         | FileSystem.IsFile _ :: l' => go l'
         | FileSystem.IsDirectory d' :: l' => allListed d' && go l'
         end) entries
  | _ => false
  end.

(** What the multi-volume scan has done to the outside, by the state of
    the master of [jQuery.when]: nothing while it is pending; one call
    with the shared array, all promises counted, once it has resolved; an
    alert and one call with [null] once it has rejected. *)
Definition Reported (DOMError_toString : DOMError.t -> string)
           (promises : list (Promise (list string)))
           (st : AbstractBackend.State) : Prop :=
  Counted promises st
  /\ match AbstractBackend.master st with
     | jQuery.MasterPending => AbstractBackend.effects st = []
     | jQuery.MasterResolved =>
         AbstractBackend.remaining st = 0
         /\ AbstractBackend.effects st
            = [AbstractBackend.CallbackFunction
                 (Some (AbstractBackend.directories st))]
     | jQuery.MasterRejected e =>
         AbstractBackend.effects st
         = [AbstractBackend.Alert
              (AbstractBackend.alertMessage DOMError_toString e);
            AbstractBackend.CallbackFunction None]
     end.

(** Directories in a list of entries, each with all it contains. *)
Definition countEntries (entries : list FileSystem.Entry) : nat :=
  list_sum (map FileSystem.countDirectories (subdirectories entries)).

(** Directories on a stack, each with all it contains. *)
Definition stackCount (stack : list FileSystem.DirectoryEntry) : nat :=
  list_sum (map FileSystem.countDirectories stack).

(** How a walk of the tree scan that starts with a pending promise ends:
    resolved with the accumulated directories after listings that all
    succeeded; rejected with the string of the error code of the first
    listing that failed; or stalled on a listing that never calls back. *)
Inductive Ending (FileError : FileError.constants)
          (st : StoragePhoneGap.ScanState) : Prop :=
| EndResolved :
    Forall listedWell (StoragePhoneGap.listed st) ->
    StoragePhoneGap.deferred st
    = Resolved (StoragePhoneGap.directories st) ->
    Ending FileError st
| EndRejected (before : list FileSystem.DirectoryEntry)
              (top : FileSystem.DirectoryEntry) (error : FileError.t) :
    StoragePhoneGap.listed st = before ++ [top] ->
    Forall listedWell before ->
    FileSystem.readEntries top = FileSystem.Failure error ->
    StoragePhoneGap.deferred st
    = Rejected (VString (StoragePhoneGap._errorCodeToString
                           FileError (FileError.code error))) ->
    Ending FileError st
| EndStalled (before : list FileSystem.DirectoryEntry)
             (top : FileSystem.DirectoryEntry) :
    StoragePhoneGap.listed st = before ++ [top] ->
    Forall listedWell before ->
    FileSystem.readEntries top = FileSystem.NoCallback ->
    StoragePhoneGap.deferred st = Pending ->
    Ending FileError st.

End Spec.

(* ===================================================================== *)
(** * Sample volumes *)
(* ===================================================================== *)

Module Samples.
Import JS.

(** A DeviceStorage whose enumeration reports the files named [names] and
    then its end; [get] never answers. *)
Definition deviceStorage (names : list string) : DeviceStorage.t :=
  DeviceStorage.mk "sdcard" (fun _ => DeviceStorage.NoEvent)
    (fun _ => Spec.fileEvents (map File.mk names)
              ++ [DeviceStorage.CursorSuccess None]).

(** A file system with the tree under [root]; [getFile] never answers. *)
Definition fileSystem (root : FileSystem.DirectoryEntry) : FileSystem.t :=
  FileSystem.mk root (fun _ _ => FileSystem.NoCallback).

(** A card with an upper-case archive and the first part of a split one
    at its root. *)
Definition archiveNames : list string := ["ARCHIVE.ZIM"; "wiki.zimaa"].

Definition cardFirefoxOS : StorageFirefoxOS.t :=
  StorageFirefoxOS.StorageFirefoxOS (deviceStorage archiveNames).

Definition cardPhoneGap : StoragePhoneGap.t :=
  StoragePhoneGap.StoragePhoneGap
    (fileSystem
       (FileSystem.mkDirectoryEntry "" "/"
          (FileSystem.Success (map FileSystem.IsFile archiveNames)))).

(** Volume A resolves with [/a/]; volume B cannot list its root; volume
    C resolves with [/b/]. *)
Definition volumeA : AbstractBackend.Storage :=
  AbstractBackend.FirefoxOS
    (StorageFirefoxOS.StorageFirefoxOS (deviceStorage ["/a/titles.idx"])).

Definition volumeB : AbstractBackend.Storage :=
  AbstractBackend.PhoneGap
    (StoragePhoneGap.StoragePhoneGap
       (fileSystem
          (FileSystem.mkDirectoryEntry "" "/"
             (FileSystem.Failure (FileError.mk 1))))).

Definition volumeC : AbstractBackend.Storage :=
  AbstractBackend.FirefoxOS
    (StorageFirefoxOS.StorageFirefoxOS (deviceStorage ["/b/titles.idx"])).

(** A tree whose third listing fails, after two matches: the root holds a
    marker and two directories; [/a], listed second, holds an archive;
    [/b], listed third, cannot be read. *)
Definition unreadable : FileSystem.DirectoryEntry :=
  FileSystem.mkDirectoryEntry "b" "/b" (FileSystem.Failure (FileError.mk 2)).

Definition brokenTree : StoragePhoneGap.t :=
  StoragePhoneGap.StoragePhoneGap
    (fileSystem
       (FileSystem.mkDirectoryEntry "" "/"
          (FileSystem.Success
             [FileSystem.IsFile "titles.idx";
              FileSystem.IsDirectory unreadable;
              FileSystem.IsDirectory
                (FileSystem.mkDirectoryEntry "a" "/a"
                   (FileSystem.Success [FileSystem.IsFile "wiki.zim"]))]))).

(** A tree that can be listed throughout: the root holds a marker and
    the directories [/a] and [/b]; [/b] holds a marker and [/b/c]. *)
Definition library : StoragePhoneGap.t :=
  StoragePhoneGap.StoragePhoneGap
    (fileSystem
       (FileSystem.mkDirectoryEntry "" "/"
          (FileSystem.Success
             [FileSystem.IsFile "titles.idx";
              FileSystem.IsDirectory
                (FileSystem.mkDirectoryEntry "a" "/a"
                   (FileSystem.Success
                      [FileSystem.IsFile "wiki.zim";
                       FileSystem.IsFile "notes.txt"]));
              FileSystem.IsDirectory
                (FileSystem.mkDirectoryEntry "b" "/b"
                   (FileSystem.Success
                      [FileSystem.IsFile "titles.idx";
                       FileSystem.IsDirectory
                         (FileSystem.mkDirectoryEntry "c" "/b/c"
                            (FileSystem.Success
                               [FileSystem.IsFile "x.zim"]))]))]))).

(** A card whose cursor reports a file and then nothing more. *)
Definition hungCard : StorageFirefoxOS.t :=
  StorageFirefoxOS.StorageFirefoxOS
    (DeviceStorage.mk "sdcard" (fun _ => DeviceStorage.NoEvent)
       (fun _ => Spec.fileEvents [File.mk "c/titles.idx"])).

Definition volumeHung : AbstractBackend.Storage :=
  AbstractBackend.FirefoxOS hungCard.

(** A DeviceStorage whose [get] fails with a DOM error of the given
    name, and whose enumeration fails at once with the same error. *)
Definition failingDeviceStorage (errorName : string) : StorageFirefoxOS.t :=
  StorageFirefoxOS.StorageFirefoxOS
    (DeviceStorage.mk "sdcard"
       (fun _ => DeviceStorage.OnError (DOMError.mk errorName ""))
       (fun _ => [DeviceStorage.CursorError (DOMError.mk errorName "")])).

(** A file system in which only [/sdcard/wiki.zim] exists. *)
Definition oneFile : StoragePhoneGap.t :=
  StoragePhoneGap.StoragePhoneGap
    (FileSystem.mk
       (FileSystem.mkDirectoryEntry "" "/" (FileSystem.Success []))
       (fun path _ =>
          if String.eqb path "/sdcard/wiki.zim" then
            FileSystem.Success
              (FileSystem.mkFileEntry
                 (FileSystem.Success (File.mk "wiki.zim")))
          else FileSystem.Failure (FileError.mk 1))).

End Samples.

(* ===================================================================== *)
(** * Properties *)
(* ===================================================================== *)

(** ** Strings *)

Lemma endsWith_append (p suffix : string) :
  util.endsWith (p ++ suffix) suffix = true.
Proof.
  induction p as [|a p IH]; cbn [util.endsWith String.append].
  - destruct suffix; cbn [util.endsWith]; rewrite String.eqb_refl;
      reflexivity.
  - rewrite IH. apply orb_true_r.
Qed.

Lemma endsWith_inv (str suffix : string) :
  util.endsWith str suffix = true -> exists p, str = (p ++ suffix)%string.
Proof.
  induction str as [|a str IH]; cbn [util.endsWith]; intros H.
  - rewrite orb_false_r in H. apply String.eqb_eq in H.
    exists EmptyString. exact H.
  - apply orb_true_iff in H. destruct H as [H|H].
    + apply String.eqb_eq in H. exists EmptyString. exact H.
    + destruct (IH H) as [p Hp]. exists (String a p). now rewrite Hp.
Qed.

(** [util.endsWith] is the suffix test. *)
Lemma endsWith_spec (str suffix : string) :
  util.endsWith str suffix = true <-> exists p, str = (p ++ suffix)%string.
Proof.
  split.
  - apply endsWith_inv.
  - intros [p ->]. apply endsWith_append.
Qed.

Lemma endsWith_cons (a : ascii) (str suffix : string) :
  util.endsWith (String a str) suffix
  = String.eqb (String a str) suffix || util.endsWith str suffix.
Proof. reflexivity. Qed.

(** Under the [i] flag a character matches a letter of the pattern
    exactly when its lower-case form is that letter. *)
Ltac by_character a :=
  destruct a as [[] [] [] [] [] [] [] []]; reflexivity.

Lemma charMatches_dot (a : ascii) :
  JS.charMatches true a "." = Ascii.eqb (JS.toLowerCaseChar a) ".".
Proof. by_character a. Qed.

Lemma charMatches_z (a : ascii) :
  JS.charMatches true a "z" = Ascii.eqb (JS.toLowerCaseChar a) "z".
Proof. by_character a. Qed.

Lemma charMatches_i (a : ascii) :
  JS.charMatches true a "i" = Ascii.eqb (JS.toLowerCaseChar a) "i".
Proof. by_character a. Qed.

Lemma charMatches_m (a : ascii) :
  JS.charMatches true a "m" = Ascii.eqb (JS.toLowerCaseChar a) "m".
Proof. by_character a. Qed.

Lemma charMatches_a (a : ascii) :
  JS.charMatches true a "a" = Ascii.eqb (JS.toLowerCaseChar a) "a".
Proof. by_character a. Qed.

(** A match of [/\.zim(aa)?$/i] at the head of [s]. *)
Lemma regexpZIMFileName_here (s : string) :
  JS.rmatch true StorageFirefoxOS.regexpZIMFileName s (fun _ => true)
  = String.eqb (JS.toLowerCase s) ".zim"
    || String.eqb (JS.toLowerCase s) ".zimaa".
Proof.
  unfold StorageFirefoxOS.regexpZIMFileName.
  destruct s as [|c1 [|c2 [|c3 [|c4 [|c5 [|c6 [|c7 s]]]]]]];
    cbn [JS.rmatch JS.toLowerCase String.eqb];
    rewrite ?charMatches_dot, ?charMatches_z, ?charMatches_i,
            ?charMatches_m, ?charMatches_a;
    repeat match goal with
           | |- context [Ascii.eqb ?x ?y] => destruct (Ascii.eqb x y)
           end; reflexivity.
Qed.

(** [regexpZIMFileName.test(s)] holds exactly when the lower-cased [s]
    ends in [.zim] or in [.zimaa]. *)
Lemma regexpZIMFileName_test_spec (s : string) :
  StorageFirefoxOS.regexpZIMFileName_test s
  = util.endsWith (JS.toLowerCase s) ".zim"
    || util.endsWith (JS.toLowerCase s) ".zimaa".
Proof.
  unfold StorageFirefoxOS.regexpZIMFileName_test.
  induction s as [|a s IH].
  - reflexivity.
  - cbn [JS.test JS.toLowerCase util.endsWith].
    rewrite regexpZIMFileName_here, IH. cbn [JS.toLowerCase].
    repeat match goal with
           | |- context [String.eqb ?x ?y] =>
               generalize (String.eqb x y); intro
           | |- context [util.endsWith ?x ?y] =>
               generalize (util.endsWith x y); intro
           end.
    repeat match goal with b : bool |- _ => destruct b end; reflexivity.
Qed.

Lemma get_last (s : string) (a : ascii) :
  String.get (String.length s) (s ++ String a "") = Some a.
Proof. induction s as [|b s IH]; [reflexivity | exact IH]. Qed.

Lemma endsWith_snoc (s : string) (a c : ascii) :
  util.endsWith (s ++ String a "") (String c "") = Ascii.eqb a c.
Proof.
  induction s as [|b s IH].
  - cbn. destruct (Ascii.eqb a c); reflexivity.
  - cbn [String.append util.endsWith]. rewrite IH.
    destruct s; cbn [String.append String.eqb];
      destruct (Ascii.eqb b c); reflexivity.
Qed.

Lemma string_snoc_cases (s : string) :
  s = "" \/ exists s' a, s = (s' ++ String a "")%string.
Proof.
  induction s as [|b s IH]; [now left | right].
  destruct IH as [->|(s' & a & ->)].
  - now exists "", b.
  - now exists (String b s'), a.
Qed.

Lemma length_snoc (s : string) (a : ascii) :
  String.length (s ++ String a "") = S (String.length s).
Proof. induction s; cbn; congruence. Qed.

(** The test of [dirReaderSuccess] on the path of the directory holds
    exactly when the path does not end in a slash. *)
Lemma needs_slash_spec (path : string) :
  (JS.length path =? 0)%Z
  || negb (match JS.charAt path (JS.length path - 1)%Z with
           | Some c => Ascii.eqb c "/"
           | None => false
           end)
  = negb (util.endsWith path "/").
Proof.
  destruct (string_snoc_cases path) as [->|(s & a & ->)]; [reflexivity|].
  rewrite endsWith_snoc. unfold JS.length, JS.charAt.
  rewrite length_snoc.
  replace (Z.of_nat (S (String.length s)) - 1)%Z
    with (Z.of_nat (String.length s)) by lia.
  rewrite Nat2Z.id, get_last.
  destruct (Z.eqb_spec (Z.of_nat (S (String.length s))) 0); [lia|].
  destruct (Z.ltb_spec (Z.of_nat (String.length s)) 0); [lia|].
  reflexivity.
Qed.

(** [lastIndexOf] finds nothing in a string without the character. *)
Lemma lastIndexOf_from_none (i : nat) (s : string) (c : ascii) :
  Spec.occurs c s = false -> JS.lastIndexOf_from i s c = None.
Proof.
  revert i. induction s as [|a s IH]; intros i H; [reflexivity|].
  cbn in *. apply orb_false_iff in H. destruct H as [Ha Hs].
  now rewrite IH, Ha.
Qed.

Lemma lastIndexOf_from_last (i : nat) (d base : string) (c : ascii) :
  Spec.occurs c base = false ->
  JS.lastIndexOf_from i (d ++ String c base) c = Some (i + String.length d).
Proof.
  revert i. induction d as [|a d IH]; intros i H.
  - cbn. rewrite lastIndexOf_from_none by assumption.
    rewrite Ascii.eqb_refl. f_equal. lia.
  - cbn [String.append JS.lastIndexOf_from]. rewrite IH by assumption.
    f_equal. cbn. lia.
Qed.

Lemma substring_prefix (p q : string) :
  String.substring 0 (String.length p) (p ++ q) = p.
Proof.
  induction p as [|a p IH]; cbn.
  - destruct q; reflexivity.
  - now rewrite IH.
Qed.

Lemma append_assoc (a b c : string) :
  ((a ++ b) ++ c = a ++ (b ++ c))%string.
Proof. induction a; cbn; congruence. Qed.

Lemma length_append (a b : string) :
  String.length (a ++ b) = String.length a + String.length b.
Proof. induction a; cbn; congruence. Qed.

(** The directory pushed by the cursor scan for a marker file. *)
Lemma pushed_marker_root (name : string) :
  util.endsWith name "titles.idx" = true ->
  Spec.occurs "/" name = false ->
  StorageFirefoxOS.pushed (JS.File.mk name) = ["/"].
Proof.
  intros He Ho. unfold StorageFirefoxOS.pushed. cbn [JS.File.name].
  rewrite He. unfold JS.lastIndexOf.
  rewrite lastIndexOf_from_none by assumption. reflexivity.
Qed.

Lemma pushed_marker_subdir (dir base : string) :
  util.endsWith base "titles.idx" = true ->
  Spec.occurs "/" base = false ->
  StorageFirefoxOS.pushed (JS.File.mk (dir ++ "/" ++ base))
  = [(dir ++ "/")%string].
Proof.
  intros He Ho. unfold StorageFirefoxOS.pushed. cbn [JS.File.name].
  assert (He' : util.endsWith (dir ++ "/" ++ base) "titles.idx" = true).
  { apply endsWith_spec. apply endsWith_spec in He. destruct He as [p ->].
    exists (dir ++ "/" ++ p)%string.
    rewrite !append_assoc. reflexivity. }
  rewrite He'. unfold JS.lastIndexOf.
  change (dir ++ "/" ++ base)%string with (dir ++ String "/" base)%string.
  rewrite lastIndexOf_from_last by assumption. cbn [Nat.add].
  destruct (Z.eqb_spec (Z.of_nat (String.length dir)) (-1)); [lia|].
  cbn [negb]. f_equal. unfold JS.substring, JS.length.
  rewrite length_append. cbn [String.length].
  rewrite Z.max_l, Z.min_l by lia. cbn [Z.to_nat].
  rewrite Z.max_l, Z.min_l by lia.
  rewrite Nat.min_l, Nat.max_r by lia.
  replace (Z.to_nat (Z.of_nat (String.length dir) + 1) - 0)
    with (String.length (dir ++ "/")) by (rewrite length_append; cbn; lia).
  change (dir ++ String "/" base)%string with (dir ++ ("/" ++ base))%string.
  rewrite <- append_assoc. apply substring_prefix.
Qed.

(** ** The cursor scan of StorageFirefoxOS *)

(** While the cursor reports files, the scan accumulates what each one
    pushes and asks for the next event. *)
Lemma drive_files (files : list JS.File.t) (rest : DeviceStorage.DOMCursor)
      (st : StorageFirefoxOS.ScanState) :
  StorageFirefoxOS.drive (Spec.fileEvents files ++ rest) st
  = StorageFirefoxOS.drive rest
      (StorageFirefoxOS.mkScan
         (StorageFirefoxOS.directories st
            ++ flat_map StorageFirefoxOS.pushed files)
         (StorageFirefoxOS.deferred st)).
Proof.
  revert st. induction files as [|f files IH]; intros st.
  - cbn. rewrite app_nil_r. now destruct st.
  - cbn [Spec.fileEvents map app StorageFirefoxOS.drive
         StorageFirefoxOS.onsuccess flat_map].
    fold (Spec.fileEvents files). rewrite IH. cbn. now rewrite <- app_assoc.
Qed.

(** A cursor that reports [files] and then the end of the enumeration
    resolves the scan with what the files push, in their order. *)
Lemma cursor_scan_resolves (storage : DeviceStorage.t)
      (files : list JS.File.t) (rest : DeviceStorage.DOMCursor) :
  DeviceStorage.enumerate storage None
  = Spec.fileEvents files ++ DeviceStorage.CursorSuccess None :: rest ->
  StorageFirefoxOS.scanForArchives (StorageFirefoxOS.StorageFirefoxOS storage)
  = JS.Resolved (flat_map StorageFirefoxOS.pushed files).
Proof.
  intros H. unfold StorageFirefoxOS.scanForArchives. cbn. rewrite H.
  rewrite drive_files. reflexivity.
Qed.

(** A cursor that reports an error after [files] rejects the scan with
    the error of the cursor, whatever was accumulated. *)
Lemma cursor_scan_rejects (storage : DeviceStorage.t)
      (files : list JS.File.t) (error : JS.DOMError.t)
      (rest : DeviceStorage.DOMCursor) :
  DeviceStorage.enumerate storage None
  = Spec.fileEvents files ++ DeviceStorage.CursorError error :: rest ->
  StorageFirefoxOS.scanForArchives (StorageFirefoxOS.StorageFirefoxOS storage)
  = JS.Rejected (JS.VDOMError error).
Proof.
  intros H. unfold StorageFirefoxOS.scanForArchives. cbn. rewrite H.
  rewrite drive_files. reflexivity.
Qed.

(** What the cursor scan pushes for a file, by the classification of the
    specification. *)
Lemma pushed_classification (file : JS.File.t) :
  (Spec.isMarker (JS.File.name file) = true ->
   exists directory, StorageFirefoxOS.pushed file = [directory])
  /\ (Spec.isMarker (JS.File.name file) = false ->
      Spec.isArchiveFile (JS.File.name file) = true ->
      StorageFirefoxOS.pushed file = [JS.File.name file])
  /\ (Spec.isMarker (JS.File.name file) = false ->
      Spec.isArchiveFile (JS.File.name file) = false ->
      StorageFirefoxOS.pushed file = []).
Proof.
  unfold Spec.isMarker, Spec.isArchiveFile, StorageFirefoxOS.pushed.
  rewrite regexpZIMFileName_test_spec.
  repeat split; intros H; try intros H'; rewrite H; try rewrite H';
    eauto.
Qed.

(** The two rules exclude each other: no name is both a marker and an
    archive file. *)
Lemma marker_not_archive (name : string) :
  Spec.isMarker name = true -> Spec.isArchiveFile name = false.
Proof.
  unfold Spec.isMarker, Spec.isArchiveFile. intros H.
  apply endsWith_spec in H. destruct H as [p ->].
  assert (L : forall a b, JS.toLowerCase (a ++ b)
                          = (JS.toLowerCase a ++ JS.toLowerCase b)%string).
  { induction a; intros; cbn; congruence. }
  rewrite L. clear L. generalize (JS.toLowerCase p). intros q.
  apply orb_false_iff. split.
  - destruct (util.endsWith _ ".zim") eqn:E; [|reflexivity].
    apply endsWith_spec in E. destruct E as [r E].
    apply (f_equal (fun s => util.endsWith s "x")) in E.
    change (JS.toLowerCase "titles.idx") with ("titles.id" ++ "x")%string in E.
    rewrite <- append_assoc, endsWith_snoc in E.
    change ".zim" with (".zi" ++ "m")%string in E.
    rewrite <- append_assoc, endsWith_snoc in E. discriminate.
  - destruct (util.endsWith _ ".zimaa") eqn:E; [|reflexivity].
    apply endsWith_spec in E. destruct E as [r E].
    apply (f_equal (fun s => util.endsWith s "x")) in E.
    change (JS.toLowerCase "titles.idx") with ("titles.id" ++ "x")%string in E.
    rewrite <- append_assoc, endsWith_snoc in E.
    change ".zimaa" with (".zima" ++ "a")%string in E.
    rewrite <- append_assoc, endsWith_snoc in E. discriminate.
Qed.

(** ** The tree scan of StoragePhoneGap *)

Section TreeScan.

Variable FileError : FileError.constants.

Local Abbreviation iteration := (StoragePhoneGap.iteration FileError).
Local Abbreviation _errorCodeToString :=
  (StoragePhoneGap._errorCodeToString FileError).
Local Abbreviation Ending := (Spec.Ending FileError).

Lemma countDirectories_unfold (d : FileSystem.DirectoryEntry) :
  FileSystem.countDirectories d
  = S (match FileSystem.readEntries d with
       | FileSystem.Success entries => Spec.countEntries entries
       | _ => 0
       end).
Proof.
  destruct d as [n p [entries| |]]; cbn; try reflexivity.
  f_equal. unfold Spec.countEntries.
  induction entries as [|[name|d'] l IH]; cbn; auto.
Qed.

(** The loop of [dirReaderSuccess]: the files push their entries in the
    order of the listing, the directories go onto the stack, the last one
    on top. *)
Lemma fold_visit (dir : FileSystem.DirectoryEntry)
      (entries : list FileSystem.Entry) (st : StoragePhoneGap.ScanState) :
  fold_left (StoragePhoneGap.visit dir) entries st
  = StoragePhoneGap.mkScan
      (StoragePhoneGap.directories st
         ++ flat_map (fun '(d, name) => StoragePhoneGap.pushed d name)
                     (Spec.filesOf dir entries))
      (rev (Spec.subdirectories entries) ++ StoragePhoneGap.stack st)
      (StoragePhoneGap.deferred st)
      (StoragePhoneGap.listed st).
Proof.
  revert st. induction entries as [|[name|d] l IH]; intros st.
  - cbn. rewrite app_nil_r. now destruct st.
  - cbn [fold_left]. rewrite IH. cbn. now rewrite <- app_assoc.
  - cbn [fold_left]. rewrite IH. cbn. now rewrite <- app_assoc.
Qed.

Lemma stackCount_app (l1 l2 : list FileSystem.DirectoryEntry) :
  Spec.stackCount (l1 ++ l2) = Spec.stackCount l1 + Spec.stackCount l2.
Proof. unfold Spec.stackCount. now rewrite map_app, list_sum_app. Qed.

Lemma stackCount_rev (l : list FileSystem.DirectoryEntry) :
  Spec.stackCount (rev l) = Spec.stackCount l.
Proof.
  induction l as [|d l IH]; [reflexivity|].
  cbn [rev]. rewrite stackCount_app, IH. unfold Spec.stackCount.
  simpl. lia.
Qed.

(** The walk ends: with one unit of fuel for each directory on the stack,
    counted with all it contains, and one more, [iteration] returns. *)
Lemma iteration_returns (fuel : nat) (st : StoragePhoneGap.ScanState) :
  Spec.stackCount (StoragePhoneGap.stack st) < fuel ->
  exists st', iteration fuel st = Some st'.
Proof.
  revert st. induction fuel as [|fuel IH]; intros st H; [lia|].
  destruct st as [dirs [|top rest] def listed];
    cbn [StoragePhoneGap.iteration StoragePhoneGap.stack] in *; [eauto|].
  destruct (FileSystem.readEntries top) as [entries|error|] eqn:Hr;
    [|eauto|eauto].
  apply IH. unfold StoragePhoneGap.dirReaderSuccess.
  cbn [StoragePhoneGap.stack]. rewrite fold_visit.
  cbn [StoragePhoneGap.stack].
  rewrite stackCount_app, stackCount_rev.
  unfold Spec.stackCount in H. simpl map in H. simpl list_sum in H.
  rewrite countDirectories_unfold, Hr in H.
  unfold Spec.stackCount at 1. fold (Spec.countEntries entries).
  unfold Spec.stackCount. lia.
Qed.

Lemma run_returns (this : StoragePhoneGap.t) :
  exists st, StoragePhoneGap.run FileError this = Some st.
Proof.
  apply iteration_returns. unfold Spec.stackCount. cbn. lia.
Qed.

Lemma iteration_ending (fuel : nat) (st st' : StoragePhoneGap.ScanState) :
  StoragePhoneGap.deferred st = JS.Pending ->
  Forall Spec.listedWell (StoragePhoneGap.listed st) ->
  iteration fuel st = Some st' ->
  Ending st'.
Proof.
  revert st. induction fuel as [|fuel IH]; intros st Hp Hl H; [discriminate|].
  destruct st as [dirs [|top rest] def listed];
    cbn [StoragePhoneGap.iteration StoragePhoneGap.stack
         StoragePhoneGap.deferred StoragePhoneGap.listed
         StoragePhoneGap.directories] in *; subst def.
  - injection H as <-. now apply Spec.EndResolved.
  - destruct (FileSystem.readEntries top) as [entries|error|] eqn:Hr.
    + apply IH in H; [assumption| |];
        unfold StoragePhoneGap.dirReaderSuccess;
        cbn [StoragePhoneGap.stack]; rewrite fold_visit;
        cbn [StoragePhoneGap.deferred StoragePhoneGap.listed];
        [reflexivity|].
      apply Forall_app. split; [assumption|].
      constructor; [|constructor]. now exists entries.
    + injection H as <-.
      now apply (Spec.EndRejected _ _ listed top error).
    + injection H as <-.
      now apply (Spec.EndStalled _ _ listed top).
Qed.

Lemma ending_failure (st : StoragePhoneGap.ScanState)
      (d : FileSystem.DirectoryEntry) (error : FileError.t) :
  Ending st ->
  In d (StoragePhoneGap.listed st) ->
  FileSystem.readEntries d = FileSystem.Failure error ->
  StoragePhoneGap.deferred st
  = JS.Rejected (JS.VString (_errorCodeToString (FileError.code error))).
Proof.
  intros E Hin Hd.
  assert (K : forall l, Forall Spec.listedWell l -> In d l -> False).
  { intros l Hl Hi. rewrite Forall_forall in Hl.
    destruct (Hl d Hi) as [es Hes]. congruence. }
  destruct E as [Hl _|before top error' Hl Hb Ht Hdef|before top Hl Hb Ht _].
  - destruct (K _ Hl Hin).
  - rewrite Hl in Hin. apply in_app_or in Hin. destruct Hin as [Hi|[<-|[]]].
    + destruct (K _ Hb Hi).
    + congruence.
  - rewrite Hl in Hin. apply in_app_or in Hin. destruct Hin as [Hi|[<-|[]]].
    + destruct (K _ Hb Hi).
    + congruence.
Qed.

End TreeScan.

(** ** The multi-volume scan *)

Section Aggregate.

Variable DOMError_toString : JS.DOMError.t -> string.
Variable promises : list (JS.Promise (list string)).

Local Abbreviation settle := (AbstractBackend.settle DOMError_toString promises).
Local Abbreviation alertMessage :=
  (AbstractBackend.alertMessage DOMError_toString).

Lemma fold_settle_invariant (P : AbstractBackend.State -> Prop) :
  (forall st i, P st -> P (settle st i)) ->
  forall arrivals st, P st -> P (fold_left settle arrivals st).
Proof.
  intros Hstep arrivals. induction arrivals as [|i l IH]; intros st H.
  - exact H.
  - cbn [fold_left]. apply IH, Hstep, H.
Qed.

Lemma bounded_length (l : list nat) (n : nat) :
  NoDup l -> (forall j, In j l -> j < n) -> List.length l <= n.
Proof.
  intros Hnd Hb.
  assert (Hi : incl l (seq 0 n)).
  { intros j Hj. apply in_seq. specialize (Hb j Hj). lia. }
  pose proof (NoDup_incl_length Hnd Hi) as H.
  now rewrite length_seq in H.
Qed.

Lemma existsb_eqb_false (i : nat) (l : list nat) :
  existsb (Nat.eqb i) l = false -> ~ In i l.
Proof.
  intros H Hin.
  assert (E : existsb (Nat.eqb i) l = true).
  { apply existsb_exists. exists i. split; [assumption|apply Nat.eqb_refl]. }
  congruence.
Qed.

Lemma existsb_eqb_true (i : nat) (l : list nat) :
  existsb (Nat.eqb i) l = true -> In i l.
Proof.
  intros H. apply existsb_exists in H. destruct H as (j & Hj & E).
  apply Nat.eqb_eq in E. now subst.
Qed.

Lemma onAllResolved_counted (st : AbstractBackend.State) :
  Spec.Counted promises st ->
  Spec.Counted promises (AbstractBackend.onAllResolved st).
Proof. unfold AbstractBackend.onAllResolved. now destruct (AbstractBackend.master st). Qed.

Lemma onRejected_counted (e : JS.Reason) (st : AbstractBackend.State) :
  Spec.Counted promises st ->
  Spec.Counted promises (AbstractBackend.onRejected DOMError_toString e st).
Proof. unfold AbstractBackend.onRejected. now destruct (AbstractBackend.master st). Qed.

Lemma resolved_lt (i : nat) (p : JS.Promise (list string)) :
  nth_error promises i = Some p -> i < List.length promises.
Proof. intros H. apply nth_error_Some. congruence. Qed.

(** The state on which [settle] checks the counter, after a resolution. *)
Lemma counted_resolved (st : AbstractBackend.State) (i : nat)
      (dirs : list string) :
  Spec.Counted promises st ->
  ~ In i (AbstractBackend.settled st) ->
  nth_error promises i = Some (JS.Resolved dirs) ->
  Spec.Counted promises
    (AbstractBackend.mkState
       (jQuery.merge (AbstractBackend.directories st) dirs)
       (AbstractBackend.settled st ++ [i])
       (AbstractBackend.remaining st - 1)
       (AbstractBackend.master st) (AbstractBackend.effects st)).
Proof.
  intros (Hnd & Hb & Hc) Hni Hi. unfold Spec.Counted. cbn.
  assert (Hnd' : NoDup (AbstractBackend.settled st ++ [i])).
  { apply NoDup_app; repeat split; auto.
    - constructor; [intros []|constructor].
    - intros a Ha [<-|[]]. contradiction. }
  assert (Hb' : forall j, In j (AbstractBackend.settled st ++ [i]) ->
                          j < List.length promises).
  { intros j Hj. apply in_app_or in Hj. destruct Hj as [Hj|[<-|[]]]; auto.
    eapply resolved_lt; eassumption. }
  repeat split; auto.
  rewrite filter_app, length_app. cbn [filter].
  assert (Hr : Spec.resolvedAt promises i = true)
    by (unfold Spec.resolvedAt; now rewrite Hi).
  rewrite Hr. cbn [List.length].
  assert (Hle : List.length (filter (Spec.resolvedAt promises)
                                    (AbstractBackend.settled st ++ [i]))
                <= List.length promises).
  { apply bounded_length.
    - now apply NoDup_filter.
    - intros j Hj. apply filter_In in Hj. now apply Hb'. }
  rewrite filter_app, length_app in Hle. cbn [filter] in Hle.
  rewrite Hr in Hle. cbn [List.length] in Hle. lia.
Qed.

Lemma counted_rejected (st : AbstractBackend.State) (i : nat)
      (e : JS.Reason) :
  Spec.Counted promises st ->
  ~ In i (AbstractBackend.settled st) ->
  nth_error promises i = Some (JS.Rejected e) ->
  Spec.Counted promises
    (AbstractBackend.mkState
       (AbstractBackend.directories st)
       (AbstractBackend.settled st ++ [i])
       (AbstractBackend.remaining st)
       (AbstractBackend.master st) (AbstractBackend.effects st)).
Proof.
  intros (Hnd & Hb & Hc) Hni Hi. unfold Spec.Counted. cbn.
  repeat split.
  - apply NoDup_app; repeat split; auto.
    + constructor; [intros []|constructor].
    + intros a Ha [<-|[]]. contradiction.
  - intros j Hj. apply in_app_or in Hj. destruct Hj as [Hj|[<-|[]]]; auto.
    eapply resolved_lt; eassumption.
  - rewrite filter_app, length_app. cbn [filter].
    assert (Hr : Spec.resolvedAt promises i = false)
      by (unfold Spec.resolvedAt; now rewrite Hi).
    rewrite Hr. cbn [List.length]. lia.
Qed.

Lemma settle_counted (st : AbstractBackend.State) (i : nat) :
  Spec.Counted promises st -> Spec.Counted promises (settle st i).
Proof.
  intros H. unfold AbstractBackend.settle.
  destruct (existsb (Nat.eqb i) (AbstractBackend.settled st)) eqn:Ex;
    [assumption|].
  apply existsb_eqb_false in Ex.
  destruct (nth_error promises i) as [[|dirs|e]|] eqn:Hi; try assumption.
  - pose proof (counted_resolved st i dirs H Ex Hi) as H'.
    destruct (Nat.eqb _ 0); [apply onAllResolved_counted|]; exact H'.
  - apply onRejected_counted. now apply (counted_rejected st i e).
Qed.

Lemma init_counted :
  Spec.Counted promises (AbstractBackend.init promises).
Proof.
  set (st0 := AbstractBackend.mkState [] [] (List.length promises)
                                      jQuery.MasterPending []).
  assert (E : AbstractBackend.init promises = AbstractBackend.onAllResolved st0
              \/ AbstractBackend.init promises = st0)
    by (unfold AbstractBackend.init; destruct promises; auto).
  assert (H : Spec.Counted promises st0).
  { unfold Spec.Counted. cbn. repeat split; [constructor|intros j []|lia]. }
  destruct E as [-> | ->]; [apply onAllResolved_counted|]; exact H.
Qed.

(** While a storage's promise is rejected, the counter of [jQuery.when]
    stays positive. *)
Lemma counted_rejected_positive (st : AbstractBackend.State) (k : nat)
      (r : JS.Reason) :
  nth_error promises k = Some (JS.Rejected r) ->
  Spec.Counted promises st ->
  0 < AbstractBackend.remaining st.
Proof.
  intros Hk (Hnd & Hb & Hc).
  assert (Hle : List.length
                  (k :: filter (Spec.resolvedAt promises)
                               (AbstractBackend.settled st))
                <= List.length promises).
  { apply bounded_length.
    - constructor; [|now apply NoDup_filter].
      intros Hin. apply filter_In in Hin. destruct Hin as [_ Hr].
      unfold Spec.resolvedAt in Hr. rewrite Hk in Hr. discriminate.
    - intros j [<-|Hj]; [eapply resolved_lt; eassumption|].
      apply filter_In in Hj. now apply Hb. }
  cbn [List.length] in Hle. lia.
Qed.

Lemma settle_failing (k : nat) (r : JS.Reason) (st : AbstractBackend.State)
      (i : nat) :
  nth_error promises k = Some (JS.Rejected r) ->
  Spec.Failing DOMError_toString promises st ->
  Spec.Failing DOMError_toString promises (settle st i).
Proof.
  intros Hk (Hc & Hm & Hs).
  pose proof (settle_counted st i Hc) as Hc'.
  split; [exact Hc'|]. clear Hc'.
  unfold AbstractBackend.settle.
  destruct (existsb (Nat.eqb i) (AbstractBackend.settled st)) eqn:Ex;
    [now split|].
  apply existsb_eqb_false in Ex.
  destruct (nth_error promises i) as [[|dirs|e]|] eqn:Hi;
    try (now split).
  - pose proof (counted_resolved st i dirs Hc Ex Hi) as Hc'.
    pose proof (counted_rejected_positive _ k r Hk Hc') as Hpos.
    cbn [AbstractBackend.remaining] in *.
    destruct (Nat.eqb_spec (AbstractBackend.remaining st - 1) 0); [lia|].
    cbn [AbstractBackend.master AbstractBackend.effects
         AbstractBackend.settled].
    split.
    + destruct Hm as [Hm|(k' & e & H1 & H2 & H3 & H4)]; [now left|right].
      exists k', e. repeat split; auto. apply in_or_app. now left.
    + intros j e Hj He. apply in_app_or in Hj.
      destruct Hj as [Hj|[<-|[]]]; [eauto|congruence].
  - unfold AbstractBackend.onRejected.
    cbn [AbstractBackend.master AbstractBackend.effects
         AbstractBackend.settled AbstractBackend.directories
         AbstractBackend.remaining].
    destruct Hm as [[Hm He]|(k' & e' & H1 & H2 & H3 & H4)].
    + rewrite Hm, He.
      cbn [AbstractBackend.master AbstractBackend.effects
           AbstractBackend.settled app].
      split; [|intros; discriminate].
      right. exists i, e. repeat split; auto.
      apply in_or_app. right. now left.
    + rewrite H3.
      cbn [AbstractBackend.master AbstractBackend.effects
           AbstractBackend.settled].
      split; [|intros; discriminate].
      right. exists k', e'. repeat split; auto. apply in_or_app. now left.
Qed.

Lemma init_failing (k : nat) (r : JS.Reason) :
  nth_error promises k = Some (JS.Rejected r) ->
  Spec.Failing DOMError_toString promises (AbstractBackend.init promises).
Proof.
  intros Hk. split; [apply init_counted|].
  assert (E : AbstractBackend.init promises
              = AbstractBackend.mkState [] [] (List.length promises)
                                        jQuery.MasterPending []).
  { unfold AbstractBackend.init. destruct promises; [|reflexivity].
    destruct k; discriminate. }
  rewrite E. cbn. split; [now left|intros j e []].
Qed.

Lemma aggregate_failing (k : nat) (r : JS.Reason) (arrivals : list nat) :
  nth_error promises k = Some (JS.Rejected r) ->
  Spec.Failing DOMError_toString promises
    (AbstractBackend.aggregate DOMError_toString promises arrivals).
Proof.
  intros Hk. unfold AbstractBackend.aggregate.
  apply fold_settle_invariant.
  - intros st i. now apply (settle_failing k r).
  - now apply (init_failing k r).
Qed.

(** A promise that is not pending is among the settled ones after its
    arrival. *)
Lemma settle_keeps (st : AbstractBackend.State) (i j : nat) :
  In j (AbstractBackend.settled st) ->
  In j (AbstractBackend.settled (settle st i)).
Proof.
  intros H. unfold AbstractBackend.settle.
  destruct (existsb _ _); [assumption|].
  destruct (nth_error promises i) as [[|dirs|e]|]; try assumption.
  - destruct (Nat.eqb _ 0); unfold AbstractBackend.onAllResolved;
      cbn [AbstractBackend.master AbstractBackend.settled];
      try destruct (AbstractBackend.master st); cbn; apply in_or_app;
      now left.
  - unfold AbstractBackend.onRejected.
    cbn [AbstractBackend.master AbstractBackend.settled].
    destruct (AbstractBackend.master st); cbn; apply in_or_app; now left.
Qed.

Lemma settle_settles (st : AbstractBackend.State) (i : nat) (r : JS.Reason) :
  nth_error promises i = Some (JS.Rejected r) ->
  In i (AbstractBackend.settled (settle st i)).
Proof.
  intros Hi. unfold AbstractBackend.settle.
  destruct (existsb _ _) eqn:Ex; [now apply existsb_eqb_true|].
  rewrite Hi. unfold AbstractBackend.onRejected.
  cbn [AbstractBackend.master AbstractBackend.settled].
  destruct (AbstractBackend.master st); cbn; apply in_or_app; right;
    now left.
Qed.

Lemma fold_settle_settles (arrivals : list nat) (st : AbstractBackend.State)
      (k : nat) (r : JS.Reason) :
  nth_error promises k = Some (JS.Rejected r) ->
  In k arrivals \/ In k (AbstractBackend.settled st) ->
  In k (AbstractBackend.settled (fold_left settle arrivals st)).
Proof.
  intros Hk. revert st.
  induction arrivals as [|i l IH]; intros st [Hin|Hin]; cbn [fold_left].
  - destruct Hin.
  - assumption.
  - destruct Hin as [<-|Hin]; apply IH; [right|now left].
    now apply (settle_settles st i r).
  - apply IH. right. now apply settle_keeps.
Qed.

(** With a rejected promise among them, the callback is never given a
    list; and once the rejected promise has settled, the outside has seen
    an alert and one call with [null], and nothing else. *)
Lemma aggregate_rejected (k : nat) (r : JS.Reason) (arrivals : list nat) :
  nth_error promises k = Some (JS.Rejected r) ->
  (forall l, ~ In (AbstractBackend.CallbackFunction (Some l))
               (AbstractBackend.effects
                  (AbstractBackend.aggregate DOMError_toString promises
                                             arrivals)))
  /\ (In k arrivals ->
      exists k' e,
        nth_error promises k' = Some (JS.Rejected e)
        /\ AbstractBackend.effects
             (AbstractBackend.aggregate DOMError_toString promises arrivals)
           = [AbstractBackend.Alert (alertMessage e);
              AbstractBackend.CallbackFunction None]).
Proof.
  intros Hk.
  destruct (aggregate_failing k r arrivals Hk) as (_ & Hm & Hs).
  split.
  - intros l Hin.
    destruct Hm as [[_ He]|(k' & e & _ & _ & _ & He)]; rewrite He in Hin.
    + destruct Hin.
    + destruct Hin as [H|[H|[]]]; discriminate.
  - intros Hin.
    assert (Hset : In k (AbstractBackend.settled
                           (AbstractBackend.aggregate DOMError_toString
                                                      promises arrivals))).
    { unfold AbstractBackend.aggregate.
      apply (fold_settle_settles arrivals _ k r Hk). now left. }
    specialize (Hs k r Hset Hk).
    destruct Hm as [[Hm _]|(k' & e & H1 & _ & _ & He)]; [contradiction|].
    now exists k', e.
Qed.

(** While the promises settle with resolutions only, and not all of them
    have, the shared array holds their directories in the order of
    arrival and nothing has been done to the outside. *)
Lemma aggregate_resolving (arrivals : list nat) :
  NoDup arrivals ->
  (forall i, In i arrivals -> Spec.resolvedAt promises i = true) ->
  List.length arrivals < List.length promises ->
  AbstractBackend.aggregate DOMError_toString promises arrivals
  = AbstractBackend.mkState
      (List.concat (map (Spec.dirsAt promises) arrivals)) arrivals
      (List.length promises - List.length arrivals)
      jQuery.MasterPending [].
Proof.
  unfold AbstractBackend.aggregate.
  induction arrivals as [|i l IH] using rev_ind; intros Hnd Hres Hlen.
  - cbn [fold_left map List.concat List.length]. rewrite Nat.sub_0_r.
    unfold AbstractBackend.init. destruct promises; [cbn in Hlen; lia|].
    reflexivity.
  - rewrite length_app in Hlen. cbn [List.length] in Hlen.
    apply NoDup_app_remove_r in Hnd as Hnd'.
    rewrite fold_left_app. cbn [fold_left].
    rewrite IH; [|assumption| |lia].
    2:{ intros j Hj. apply Hres, in_or_app. now left. }
    unfold AbstractBackend.settle. cbn [AbstractBackend.settled].
    assert (Hni : existsb (Nat.eqb i) l = false).
    { destruct (existsb (Nat.eqb i) l) eqn:E; [|reflexivity].
      apply existsb_eqb_true in E. exfalso.
      apply NoDup_remove_2 with (l' := []) in Hnd.
      rewrite app_nil_r in Hnd. contradiction. }
    rewrite Hni.
    assert (Hr : Spec.resolvedAt promises i = true)
      by (apply Hres, in_or_app; right; now left).
    unfold Spec.resolvedAt in Hr.
    destruct (nth_error promises i) as [[|dirs|e]|] eqn:Hi;
      try discriminate.
    cbn [AbstractBackend.remaining AbstractBackend.directories
         AbstractBackend.master AbstractBackend.effects].
    destruct (Nat.eqb_spec (List.length promises - List.length l - 1) 0);
      [lia|].
    rewrite map_app, concat_app, length_app. cbn [map List.concat List.length].
    assert (Hd : Spec.dirsAt promises i = dirs)
      by (unfold Spec.dirsAt; now rewrite Hi).
    rewrite Hd, app_nil_r. unfold jQuery.merge.
    f_equal. lia.
Qed.

(** When every promise has resolved, each once, the callback is called
    once, with the directories of the storages in the order in which
    their promises settled. *)
Lemma aggregate_resolved (arrivals : list nat) :
  NoDup arrivals ->
  (forall i, In i arrivals -> Spec.resolvedAt promises i = true) ->
  List.length arrivals = List.length promises ->
  AbstractBackend.effects
    (AbstractBackend.aggregate DOMError_toString promises arrivals)
  = [AbstractBackend.CallbackFunction
       (Some (List.concat (map (Spec.dirsAt promises) arrivals)))].
Proof.
  intros Hnd Hres Hlen.
  destruct arrivals as [|i l _] using rev_ind.
  - unfold AbstractBackend.aggregate. cbn [fold_left].
    destruct promises; [reflexivity|discriminate].
  - rewrite length_app in Hlen. cbn [List.length] in Hlen.
    apply NoDup_app_remove_r in Hnd as Hnd'.
    unfold AbstractBackend.aggregate. rewrite fold_left_app.
    cbn [fold_left].
    fold (AbstractBackend.aggregate DOMError_toString promises l).
    rewrite aggregate_resolving; [|assumption| |lia].
    2:{ intros j Hj. apply Hres, in_or_app. now left. }
    unfold AbstractBackend.settle. cbn [AbstractBackend.settled].
    assert (Hni : existsb (Nat.eqb i) l = false).
    { destruct (existsb (Nat.eqb i) l) eqn:E; [|reflexivity].
      apply existsb_eqb_true in E. exfalso.
      apply NoDup_remove_2 with (l' := []) in Hnd.
      rewrite app_nil_r in Hnd. contradiction. }
    rewrite Hni.
    assert (Hr : Spec.resolvedAt promises i = true)
      by (apply Hres, in_or_app; right; now left).
    unfold Spec.resolvedAt in Hr.
    destruct (nth_error promises i) as [[|dirs|e]|] eqn:Hi;
      try discriminate.
    cbn [AbstractBackend.remaining AbstractBackend.directories
         AbstractBackend.master AbstractBackend.effects].
    destruct (Nat.eqb_spec (List.length promises - List.length l - 1) 0);
      [|lia].
    unfold AbstractBackend.onAllResolved.
    cbn [AbstractBackend.master AbstractBackend.effects
         AbstractBackend.directories app].
    rewrite map_app, concat_app. cbn [map List.concat].
    assert (Hd : Spec.dirsAt promises i = dirs)
      by (unfold Spec.dirsAt; now rewrite Hi).
    rewrite Hd, app_nil_r. reflexivity.
Qed.

End Aggregate.

(** ** Sample runs *)

Example cardFirefoxOS_scan :
  StorageFirefoxOS.scanForArchives Samples.cardFirefoxOS
  = JS.Resolved ["ARCHIVE.ZIM"; "wiki.zimaa"].
Proof. reflexivity. Qed.

Example cardPhoneGap_scan :
  StoragePhoneGap.scanForArchives FileError.html5 Samples.cardPhoneGap
  = JS.Resolved [].
Proof. reflexivity. Qed.

Example volumeA_scan :
  AbstractBackend.storage_scanForArchives FileError.html5 Samples.volumeA
  = JS.Resolved ["/a/"].
Proof. reflexivity. Qed.

Example volumeB_scan :
  AbstractBackend.storage_scanForArchives FileError.html5 Samples.volumeB
  = JS.Rejected (JS.VString "NOT_FOUND_ERR").
Proof. reflexivity. Qed.

Example brokenTree_scan :
  StoragePhoneGap.scanForArchives FileError.html5 Samples.brokenTree
  = JS.Rejected (JS.VString "SECURITY_ERR").
Proof. reflexivity. Qed.

Example brokenTree_run :
  option_map (fun st => (StoragePhoneGap.directories st,
                         map FileSystem.fullPath (StoragePhoneGap.listed st)))
             (StoragePhoneGap.run FileError.html5 Samples.brokenTree)
  = Some (["/"; "/a/wiki.zim"], ["/"; "/a"; "/b"]).
Proof. reflexivity. Qed.

Example oneFile_get :
  StoragePhoneGap.get FileError.html5 Samples.oneFile
                      "file:///sdcard/wiki.zim"
  = StoragePhoneGap.mkGetRun
      ["Trying to access file:///sdcard/wiki.zim"]
      ("/sdcard/wiki.zim", FileSystem.mkFlags false false)
      (JS.Resolved (JS.File.mk "wiki.zim")).
Proof. reflexivity. Qed.

Example oneFile_get_missing :
  StoragePhoneGap.get FileError.html5 Samples.oneFile "/sdcard/none.zim"
  = StoragePhoneGap.mkGetRun
      ["Trying to access /sdcard/none.zim"; "Error code: 1"]
      ("/sdcard/none.zim", FileSystem.mkFlags false false)
      (JS.Rejected (JS.VString "NOT_FOUND_ERR")).
Proof. reflexivity. Qed.

Example fan_in_A_then_B :
  AbstractBackend.scanForArchives FileError.html5 JS.DOMError.name
    [Samples.volumeA; Samples.volumeB] [0; 1]
  = [AbstractBackend.Alert
       (AbstractBackend.alertMessage JS.DOMError.name
                                     (JS.VString "NOT_FOUND_ERR"));
     AbstractBackend.CallbackFunction None].
Proof. reflexivity. Qed.

Example fan_in_C_before_A :
  AbstractBackend.scanForArchives FileError.html5 JS.DOMError.name
    [Samples.volumeA; Samples.volumeC] [1; 0]
  = [AbstractBackend.CallbackFunction (Some ["/b/"; "/a/"])].
Proof. reflexivity. Qed.

(** ** The claims of the specification *)

(** How a cursor scan that starts with a pending promise can end. *)
Lemma drive_ending (cursor : DeviceStorage.DOMCursor)
      (st : StorageFirefoxOS.ScanState) :
  StorageFirefoxOS.deferred st = JS.Pending ->
  match StorageFirefoxOS.deferred (StorageFirefoxOS.drive cursor st) with
  | JS.Pending => True
  | JS.Resolved _ => In (DeviceStorage.CursorSuccess None) cursor
  | JS.Rejected reason =>
      exists error, In (DeviceStorage.CursorError error) cursor
                    /\ reason = JS.VDOMError error
  end.
Proof.
  revert st. induction cursor as [|ev rest IH]; intros st Hp.
  - cbn. now rewrite Hp.
  - cbn [StorageFirefoxOS.drive].
    destruct ev as [[file|]|error]; cbn -[In].
    + specialize (IH (StorageFirefoxOS.mkScan
                        (StorageFirefoxOS.directories st
                           ++ StorageFirefoxOS.pushed file)
                        (StorageFirefoxOS.deferred st)) Hp).
      destruct (StorageFirefoxOS.deferred (StorageFirefoxOS.drive rest _));
        [exact I|now right|].
      destruct IH as (error & Hin & ->). exists error. split; [now right|auto].
    + rewrite Hp. cbn. now left.
    + rewrite Hp. cbn -[In]. exists error. split; [now left|reflexivity].
Qed.

Lemma substring_whole (s : string) :
  String.substring 0 (String.length s) s = s.
Proof. induction s; cbn; congruence. Qed.

(** [get] strips one leading [file://]. *)
Lemma substr_from_prefix (p : string) :
  JS.substr_from ("file://" ++ p) 7 = p.
Proof.
  unfold JS.substr_from. cbn [String.append String.length Nat.sub].
  cbn [String.substring]. rewrite Nat.sub_0_r. apply substring_whole.
Qed.


Lemma get_request (FileError : FileError.constants)
      (this : StoragePhoneGap.t) (path : string) :
  StoragePhoneGap.request (StoragePhoneGap.get FileError this path)
  = (if String.eqb (JS.substr path 0 7) "file://"
     then JS.substr_from path 7 else path,
     FileSystem.mkFlags false false).
Proof.
  unfold StoragePhoneGap.get.
  destruct (FileSystem.getFile _ _ _) as [[[file|error|]]|error|];
    reflexivity.
Qed.

Lemma get_promise (FileError : FileError.constants)
      (this : StoragePhoneGap.t) (path : string) :
  StoragePhoneGap.promise (StoragePhoneGap.get FileError this path)
  = Spec.lookup FileError this
      (fst (StoragePhoneGap.request (StoragePhoneGap.get FileError this path))).
Proof.
  rewrite get_request. cbn [fst].
  unfold StoragePhoneGap.get, Spec.lookup.
  destruct (FileSystem.getFile _ _ _) as [[[file|error|]]|error|];
    reflexivity.
Qed.

(** Every string of [_errorCodeToString] names a kind of the taxonomy. *)
Lemma errorCodeToString_kind (FileError : FileError.constants) (code : Z) :
  exists kind,
    Spec.kindOf (JS.VString (StoragePhoneGap._errorCodeToString FileError code))
    = Some kind.
Proof.
  unfold StoragePhoneGap._errorCodeToString.
  repeat match goal with
         | |- context [Z.eqb ?a ?b] => destruct (Z.eqb a b)
         end; eexists; reflexivity.
Qed.

Lemma lookup_rejected (FileError : FileError.constants)
      (this : StoragePhoneGap.t) (path : string) (reason : JS.Reason) :
  Spec.lookup FileError this path = JS.Rejected reason ->
  exists code,
    reason = JS.VString (StoragePhoneGap._errorCodeToString FileError code).
Proof.
  unfold Spec.lookup.
  destruct (FileSystem.getFile _ _ _) as [[[file|error|]]|error|];
    intros H; try discriminate; injection H as <-; eauto.
Qed.

Lemma scan_rejected (FileError : FileError.constants)
      (this : StoragePhoneGap.t) (reason : JS.Reason) :
  StoragePhoneGap.scanForArchives FileError this = JS.Rejected reason ->
  exists code,
    reason = JS.VString (StoragePhoneGap._errorCodeToString FileError code).
Proof.
  unfold StoragePhoneGap.scanForArchives.
  destruct (run_returns FileError this) as [st Hst]. rewrite Hst.
  assert (E : Spec.Ending FileError st).
  { eapply iteration_ending; [| |exact Hst]; cbn; [reflexivity|constructor]. }
  intros H. destruct E as [_ Hd|before top error _ _ _ Hd|before top _ _ _ Hd];
    rewrite Hd in H; try discriminate.
  injection H as <-. eauto.
Qed.

(** C1. The tree scan of StoragePhoneGap does not give one entry for
    each archive file: on a card whose root holds [ARCHIVE.ZIM] and
    [wiki.zimaa], both archive files by the rule of the specification, it
    resolves with no entry at all, where the cursor scan of
    StorageFirefoxOS resolves with one entry for each. *)
Theorem C1_tree_scan_drops_archive_files :
  Forall (fun name => Spec.isArchiveFile name = true) Samples.archiveNames
  /\ StoragePhoneGap.scanForArchives FileError.html5 Samples.cardPhoneGap
     = JS.Resolved []
  /\ StorageFirefoxOS.scanForArchives Samples.cardFirefoxOS
     = JS.Resolved Samples.archiveNames.
Proof. repeat constructor. Qed.

(** C2. The classification of the tree scan is case-sensitive and knows
    [.zim] only: in any directory, [archive.zim] is an entry, but
    [ARCHIVE.ZIM] and [wiki.zimaa] are not, while the cursor scan
    classifies every name by its lower-case form, with both suffixes. *)
Theorem C2_tree_scan_is_case_sensitive (dir : FileSystem.DirectoryEntry) :
  StoragePhoneGap.pushed dir "archive.zim"
  = [(FileSystem.fullPath dir ++ "/archive.zim")%string]
  /\ StoragePhoneGap.pushed dir "ARCHIVE.ZIM" = []
  /\ StoragePhoneGap.pushed dir "wiki.zimaa" = []
  /\ (forall name, StorageFirefoxOS.regexpZIMFileName_test name
                   = Spec.isArchiveFile name)
  /\ StorageFirefoxOS.pushed (JS.File.mk "ARCHIVE.ZIM") = ["ARCHIVE.ZIM"]
  /\ StorageFirefoxOS.pushed (JS.File.mk "archive.zim") = ["archive.zim"].
Proof.
  repeat split; try reflexivity.
  intros name. apply regexpZIMFileName_test_spec.
Qed.

Lemma nth_error_map_scan (FileError : FileError.constants)
      (storages : list AbstractBackend.Storage) (k : nat) :
  nth_error (map (AbstractBackend.storage_scanForArchives FileError)
                 storages) k
  = option_map (AbstractBackend.storage_scanForArchives FileError)
               (nth_error storages k).
Proof. apply nth_error_map. Qed.

(** C3. All-or-nothing fan-in. When the scan of some storage rejects,
    the callback is never called with a list of directories, in whatever
    order the promises settle; once the rejected promise has settled, the
    user has been alerted and the callback called once, with [null]. For
    two storages of which the first resolves and the second rejects, this
    is the alert for the error of the second. *)
Theorem C3_all_or_nothing_fan_in
        (FileError : FileError.constants)
        (DOMError_toString : JS.DOMError.t -> string)
        (storages : list AbstractBackend.Storage) (arrivals : list nat)
        (k : nat) (reason : JS.Reason) :
  option_map (AbstractBackend.storage_scanForArchives FileError)
             (nth_error storages k)
  = Some (JS.Rejected reason) ->
  (forall l,
      ~ In (AbstractBackend.CallbackFunction (Some l))
           (AbstractBackend.scanForArchives FileError DOMError_toString
                                            storages arrivals))
  /\ (In k arrivals ->
      exists error,
        AbstractBackend.scanForArchives FileError DOMError_toString
                                        storages arrivals
        = [AbstractBackend.Alert
             (AbstractBackend.alertMessage DOMError_toString error);
           AbstractBackend.CallbackFunction None])
  /\ (forall A B dirs,
         storages = [A; B] ->
         AbstractBackend.storage_scanForArchives FileError A
         = JS.Resolved dirs ->
         In k arrivals ->
         AbstractBackend.scanForArchives FileError DOMError_toString
                                         storages arrivals
         = [AbstractBackend.Alert
              (AbstractBackend.alertMessage DOMError_toString reason);
            AbstractBackend.CallbackFunction None]).
Proof.
  intros Hk. rewrite <- nth_error_map_scan in Hk.
  unfold AbstractBackend.scanForArchives.
  destruct (aggregate_rejected DOMError_toString _ k reason arrivals Hk)
    as [Hnever Honce].
  split; [exact Hnever|]. split.
  - intros Hin. destruct (Honce Hin) as (k' & e & _ & He). now exists e.
  - intros A B dirs -> HA Hin.
    destruct (Honce Hin) as (k' & e & Hk' & He). rewrite He.
    destruct k as [|[|k]]; cbn in Hk; [congruence| |destruct k; discriminate].
    destruct k' as [|[|k']]; cbn in Hk';
      [congruence| |destruct k'; discriminate].
    congruence.
Qed.

Lemma C3_all_or_nothing_fan_in_witness :
  AbstractBackend.scanForArchives FileError.html5 JS.DOMError.name
    [Samples.volumeA; Samples.volumeB] [1; 0]
  = [AbstractBackend.Alert
       (AbstractBackend.alertMessage JS.DOMError.name
                                     (JS.VString "NOT_FOUND_ERR"));
     AbstractBackend.CallbackFunction None].
Proof.
  refine (proj2 (proj2 (C3_all_or_nothing_fan_in
                          FileError.html5 JS.DOMError.name
                          [Samples.volumeA; Samples.volumeB] [1; 0] 1
                          (JS.VString "NOT_FOUND_ERR") _))
                Samples.volumeA Samples.volumeB ["/a/"] _ _ _).
  - reflexivity.
  - reflexivity.
  - reflexivity.
  - simpl. auto.
Defined.

Lemma dirsAt_resolved (dss : list (list string)) :
  map (Spec.dirsAt (map JS.Resolved dss)) (seq 0 (List.length dss)) = dss.
Proof.
  induction dss as [|ds dss IH]; [reflexivity|].
  cbn [List.length seq map]. rewrite <- seq_shift, map_map.
  f_equal. rewrite <- IH at 2. apply map_ext. intros i. reflexivity.
Qed.

(** C4, as the specification states it, fails: with two storages that
    both resolve, the second before the first, the callback receives the
    directories of the second storage first. *)
Lemma C4_volume_list_order_counterexample :
  ~ (forall (storages : list AbstractBackend.Storage) (arrivals : list nat),
        Permutation arrivals (seq 0 (List.length storages)) ->
        (forall i, In i arrivals ->
                   Spec.resolvedAt
                     (map (AbstractBackend.storage_scanForArchives
                             FileError.html5) storages) i = true) ->
        AbstractBackend.scanForArchives FileError.html5 JS.DOMError.name
                                        storages arrivals
        = [AbstractBackend.CallbackFunction
             (Some (List.concat
                      (map (Spec.dirsAt
                              (map (AbstractBackend.storage_scanForArchives
                                      FileError.html5) storages))
                           (seq 0 (List.length storages)))))]).
Proof.
  intros H.
  specialize (H [Samples.volumeA; Samples.volumeC] [1; 0]).
  assert (E : AbstractBackend.scanForArchives FileError.html5
                JS.DOMError.name [Samples.volumeA; Samples.volumeC] [1; 0]
              = [AbstractBackend.CallbackFunction (Some ["/b/"; "/a/"])])
    by reflexivity.
  rewrite E in H. clear E.
  assert (K : [AbstractBackend.CallbackFunction (Some ["/b/"; "/a/"])]
              = [AbstractBackend.CallbackFunction (Some ["/a/"; "/b/"])]).
  { apply H.
    - apply perm_swap.
    - intros i [<-|[<-|[]]]; reflexivity. }
  discriminate K.
Qed.

(** C4, amended. When all scans resolve and every promise has settled,
    the callback is called once, with the directories of the storages in
    the order in which their promises settled, those of each storage kept
    together and in their own order; when the promises settle in the
    order of the list of storages, this is the order of that list. *)
Theorem C4_arrival_order
        (FileError : FileError.constants)
        (DOMError_toString : JS.DOMError.t -> string)
        (storages : list AbstractBackend.Storage) (arrivals : list nat) :
  let promises :=
    map (AbstractBackend.storage_scanForArchives FileError) storages in
  Permutation arrivals (seq 0 (List.length storages)) ->
  (forall i, In i arrivals -> Spec.resolvedAt promises i = true) ->
  AbstractBackend.scanForArchives FileError DOMError_toString
                                  storages arrivals
  = [AbstractBackend.CallbackFunction
       (Some (List.concat (map (Spec.dirsAt promises) arrivals)))]
  /\ (arrivals = seq 0 (List.length storages) ->
      forall dss,
        promises = map JS.Resolved dss ->
        AbstractBackend.scanForArchives FileError DOMError_toString
                                        storages arrivals
        = [AbstractBackend.CallbackFunction (Some (List.concat dss))]).
Proof.
  intros promises Hperm Hres.
  assert (E : AbstractBackend.scanForArchives FileError DOMError_toString
                                              storages arrivals
              = [AbstractBackend.CallbackFunction
                   (Some (List.concat (map (Spec.dirsAt promises) arrivals)))]).
  { unfold AbstractBackend.scanForArchives. fold promises.
    apply aggregate_resolved.
    - apply (Permutation_NoDup (Permutation_sym Hperm)), seq_NoDup.
    - exact Hres.
    - rewrite (Permutation_length Hperm), length_seq.
      unfold promises. now rewrite length_map. }
  split; [exact E|].
  intros -> dss Hd. rewrite E. do 2 f_equal.
  assert (Hlen : List.length storages = List.length dss).
  { rewrite <- (length_map (AbstractBackend.storage_scanForArchives FileError)).
    fold promises. rewrite Hd. apply length_map. }
  rewrite Hlen, Hd. now rewrite dirsAt_resolved.
Qed.

Lemma C4_arrival_order_witness :
  AbstractBackend.scanForArchives FileError.html5 JS.DOMError.name
    [Samples.volumeA; Samples.volumeC] [1; 0]
  = [AbstractBackend.CallbackFunction (Some ["/b/"; "/a/"])].
Proof.
  refine (proj1 (C4_arrival_order FileError.html5 JS.DOMError.name
                   [Samples.volumeA; Samples.volumeC] [1; 0] _ _)).
  - apply perm_swap.
  - intros i [<-|[<-|[]]]; reflexivity.
Defined.

(** C5. A scan is all-or-nothing within one volume. In a tree scan, when
    a listing call that was made has failed, the promise is rejected with
    the string of its error code, and the run has ended without resolving;
    at the failing call this holds whatever was accumulated. A cursor scan
    in which a step reports an error rejects with the error of the
    cursor, whatever the files reported before. *)
Theorem C5_scan_discards_on_error (FileError : FileError.constants) :
  (forall this,
      exists st,
        StoragePhoneGap.run FileError this = Some st
        /\ forall d error,
            In d (StoragePhoneGap.listed st) ->
            FileSystem.readEntries d = FileSystem.Failure error ->
            StoragePhoneGap.scanForArchives FileError this
            = JS.Rejected
                (JS.VString (StoragePhoneGap._errorCodeToString
                               FileError (FileError.code error))))
  /\ (forall fuel directories top rest listed error,
         FileSystem.readEntries top = FileSystem.Failure error ->
         option_map StoragePhoneGap.deferred
           (StoragePhoneGap.iteration FileError (S fuel)
              (StoragePhoneGap.mkScan directories (top :: rest)
                                      JS.Pending listed))
         = Some (JS.Rejected
                   (JS.VString (StoragePhoneGap._errorCodeToString
                                  FileError (FileError.code error)))))
  /\ (forall storage files error rest,
         DeviceStorage.enumerate storage None
         = Spec.fileEvents files ++ DeviceStorage.CursorError error :: rest ->
         StorageFirefoxOS.scanForArchives
           (StorageFirefoxOS.StorageFirefoxOS storage)
         = JS.Rejected (JS.VDOMError error)).
Proof.
  repeat split.
  - intros this. destruct (run_returns FileError this) as [st Hst].
    exists st. split; [exact Hst|]. intros d error Hin Hd.
    unfold StoragePhoneGap.scanForArchives. rewrite Hst.
    apply (ending_failure FileError st d error); try assumption.
    eapply iteration_ending; [| |exact Hst]; cbn; [reflexivity|constructor].
  - intros fuel directories top rest listed error Hr.
    cbn [StoragePhoneGap.iteration StoragePhoneGap.stack]. rewrite Hr.
    reflexivity.
  - intros storage files error rest H.
    now apply (cursor_scan_rejects storage files error rest).
Qed.

Lemma C5_scan_discards_on_error_witness :
  StoragePhoneGap.scanForArchives FileError.html5 Samples.brokenTree
  = JS.Rejected (JS.VString "SECURITY_ERR").
Proof.
  destruct (proj1 (C5_scan_discards_on_error FileError.html5)
                  Samples.brokenTree) as (st & Hrun & H).
  cbv in Hrun. injection Hrun as <-.
  apply (H Samples.unreadable (FileError.mk 2)).
  - simpl. auto.
  - reflexivity.
Defined.

(** C6, as the specification states it, fails: StorageFirefoxOS rejects
    [get] with the name of the DOM error as it is, which is no kind of the
    taxonomy. *)
Lemma C6_taxonomy_counterexample :
  ~ (forall (this : StorageFirefoxOS.t) (path : string) (reason : JS.Reason),
        StorageFirefoxOS.get this path = JS.Rejected reason ->
        exists kind, Spec.kindOf reason = Some kind).
Proof.
  intros H.
  destruct (H (Samples.failingDeviceStorage "TypeMismatchError") "wiki.zim"
              (JS.VString "TypeMismatchError") eq_refl) as [kind Hk].
  discriminate Hk.
Qed.

(** C6, amended. StoragePhoneGap rejects [get] and [scanForArchives] with
    a string of [_errorCodeToString], which names a kind of the taxonomy,
    and is ['Unknown Error'] for every code that is none of the five
    constants. StorageFirefoxOS does not translate: [get] rejects with the
    name of the DOM error of the request, [scanForArchives] with the error
    object of the cursor. *)
Theorem C6_error_translation (FileError : FileError.constants) :
  (forall this path reason,
      StoragePhoneGap.promise (StoragePhoneGap.get FileError this path)
      = JS.Rejected reason ->
      (exists code,
          reason = JS.VString
                     (StoragePhoneGap._errorCodeToString FileError code))
      /\ exists kind, Spec.kindOf reason = Some kind)
  /\ (forall this reason,
         StoragePhoneGap.scanForArchives FileError this
         = JS.Rejected reason ->
         (exists code,
             reason = JS.VString
                        (StoragePhoneGap._errorCodeToString FileError code))
         /\ exists kind, Spec.kindOf reason = Some kind)
  /\ (forall code,
         code <> FileError.QUOTA_EXCEEDED_ERR FileError ->
         code <> FileError.NOT_FOUND_ERR FileError ->
         code <> FileError.SECURITY_ERR FileError ->
         code <> FileError.INVALID_MODIFICATION_ERR FileError ->
         code <> FileError.INVALID_STATE_ERR FileError ->
         StoragePhoneGap._errorCodeToString FileError code = "Unknown Error"
         /\ Spec.kindOf
              (JS.VString (StoragePhoneGap._errorCodeToString FileError code))
            = Some Spec.Unknown)
  /\ (forall this path reason,
         StorageFirefoxOS.get this path = JS.Rejected reason ->
         exists error,
           DeviceStorage.get (StorageFirefoxOS._storage this) path
           = DeviceStorage.OnError error
           /\ reason = JS.VString (JS.DOMError.name error))
  /\ (forall this reason,
         StorageFirefoxOS.scanForArchives this = JS.Rejected reason ->
         exists error,
           In (DeviceStorage.CursorError error)
              (DeviceStorage.enumerate (StorageFirefoxOS._storage this) None)
           /\ reason = JS.VDOMError error).
Proof.
  repeat apply conj.
  - intros this path reason H. rewrite get_promise in H.
    apply lookup_rejected in H. destruct H as [code ->].
    split; [now exists code|apply errorCodeToString_kind].
  - intros this reason H. apply scan_rejected in H. destruct H as [code ->].
    split; [now exists code|apply errorCodeToString_kind].
  - intros code H1 H2 H3 H4 H5.
    assert (E : StoragePhoneGap._errorCodeToString FileError code
                = "Unknown Error").
    { unfold StoragePhoneGap._errorCodeToString.
      repeat match goal with
             | |- context [Z.eqb ?a ?b] =>
                 destruct (Z.eqb_spec a b); [contradiction|]
             end.
      reflexivity. }
    rewrite E. split; reflexivity.
  - intros this path reason. unfold StorageFirefoxOS.get.
    destruct (DeviceStorage.get _ path) as [result|error|]; intros H;
      try discriminate.
    injection H as <-. now exists error.
  - intros this reason H. unfold StorageFirefoxOS.scanForArchives in H.
    pose proof (drive_ending
                  (DeviceStorage.enumerate (StorageFirefoxOS._storage this)
                                           None)
                  (StorageFirefoxOS.mkScan [] JS.Pending) eq_refl) as E.
    rewrite H in E. exact E.
Qed.

Lemma C6_error_translation_witness :
  (exists code,
      JS.VString "NOT_FOUND_ERR"
      = JS.VString
          (StoragePhoneGap._errorCodeToString FileError.html5 code))
  /\ exists kind, Spec.kindOf (JS.VString "NOT_FOUND_ERR") = Some kind.
Proof.
  apply (proj1 (C6_error_translation FileError.html5)
               Samples.oneFile "/sdcard/none.zim").
  reflexivity.
Defined.

(** C7. The entry for a [titles.idx] marker is a directory with its
    trailing separator. In the cursor scan, a marker without a directory
    component gives [/], and a marker [base] under [dir] gives [dir/], so
    [titles.idx] gives [/] and [subdir/titles.idx] gives [subdir/]. In
    the tree scan, the marker gives the path of the directory that lists
    it, with a [/] appended when it does not end in one. *)
Theorem C7_marker_directory_normalized :
  (forall name,
      Spec.isMarker name = true ->
      Spec.occurs "/" name = false ->
      StorageFirefoxOS.pushed (JS.File.mk name) = ["/"])
  /\ (forall dir base,
         Spec.isMarker base = true ->
         Spec.occurs "/" base = false ->
         StorageFirefoxOS.pushed (JS.File.mk (dir ++ "/" ++ base))
         = [(dir ++ "/")%string])
  /\ StorageFirefoxOS.pushed (JS.File.mk "titles.idx") = ["/"]
  /\ StorageFirefoxOS.pushed (JS.File.mk "subdir/titles.idx") = ["subdir/"]
  /\ (forall dir name,
         Spec.isMarker name = true ->
         StoragePhoneGap.pushed dir name
         = [Spec.withTrailingSeparator (FileSystem.fullPath dir)]
         /\ util.endsWith
              (Spec.withTrailingSeparator (FileSystem.fullPath dir)) "/"
            = true).
Proof.
  repeat apply conj; try reflexivity.
  - exact pushed_marker_root.
  - exact pushed_marker_subdir.
  - intros dir name H. unfold StoragePhoneGap.pushed.
    unfold Spec.isMarker in H. rewrite H, needs_slash_spec.
    unfold Spec.withTrailingSeparator.
    destruct (util.endsWith (FileSystem.fullPath dir) "/") eqn:E;
      cbn [negb]; split; try reflexivity; try assumption.
    apply endsWith_append.
Qed.

Lemma C7_marker_directory_normalized_witness :
  StorageFirefoxOS.pushed (JS.File.mk "titles.idx") = ["/"]
  /\ StorageFirefoxOS.pushed (JS.File.mk ("wikipedia/en" ++ "/" ++ "titles.idx"))
     = [("wikipedia/en" ++ "/")%string]
  /\ StoragePhoneGap.pushed (FileSystem.mkDirectoryEntry "en" "/wikipedia/en"
                                                          FileSystem.NoCallback)
                            "titles.idx"
     = [Spec.withTrailingSeparator "/wikipedia/en"].
Proof.
  repeat apply conj.
  - apply (proj1 C7_marker_directory_normalized "titles.idx"); reflexivity.
  - apply (proj1 (proj2 C7_marker_directory_normalized)
                 "wikipedia/en" "titles.idx"); reflexivity.
  - apply (proj2 (proj2 (proj2 (proj2 C7_marker_directory_normalized)))
                 (FileSystem.mkDirectoryEntry "en" "/wikipedia/en"
                                              FileSystem.NoCallback)
                 "titles.idx").
    reflexivity.
Defined.

(** C8. The archive-source resolver dispatches on the suffix of the path
    alone: a ZIM archive for the paths that end in [.zim], a local archive
    initialized from the device storage for all others; a collection of
    files always gives a local archive initialized from the files. *)
Theorem C8_suffix_dispatch (storage : AbstractBackend.Storage)
        (path : string) :
  ((exists stem, path = (stem ++ ".zim")%string) ->
   AbstractBackend.loadArchiveFromDeviceStorage storage path
   = AbstractBackend.ZIMArchive storage path)
  /\ ((forall stem, path <> (stem ++ ".zim")%string) ->
      AbstractBackend.loadArchiveFromDeviceStorage storage path
      = AbstractBackend.LocalArchive_initializeFromDeviceStorage storage path)
  /\ (forall files,
         AbstractBackend.loadArchiveFromFiles files
         = AbstractBackend.LocalArchive_initializeFromArchiveFiles files).
Proof.
  unfold AbstractBackend.loadArchiveFromDeviceStorage.
  repeat apply conj.
  - intros H. apply endsWith_spec in H. now rewrite H.
  - intros H. destruct (util.endsWith path ".zim") eqn:E; [|reflexivity].
    apply endsWith_spec in E. destruct E as [stem E].
    destruct (H stem E).
  - reflexivity.
Qed.

Lemma C8_suffix_dispatch_witness :
  AbstractBackend.loadArchiveFromDeviceStorage Samples.volumeA
                                               "/sdcard/wiki.zim"
  = AbstractBackend.ZIMArchive Samples.volumeA "/sdcard/wiki.zim"
  /\ AbstractBackend.loadArchiveFromDeviceStorage Samples.volumeA
                                                  "/sdcard/wikipedia/"
     = AbstractBackend.LocalArchive_initializeFromDeviceStorage
         Samples.volumeA "/sdcard/wikipedia/".
Proof.
  split.
  - apply (proj1 (C8_suffix_dispatch Samples.volumeA "/sdcard/wiki.zim")).
    exists "/sdcard/wiki". reflexivity.
  - apply (proj1 (proj2 (C8_suffix_dispatch Samples.volumeA
                                            "/sdcard/wikipedia/"))).
    intros stem E.
    assert (H : util.endsWith "/sdcard/wikipedia/" ".zim" = true)
      by (apply endsWith_spec; now exists stem).
    discriminate H.
Defined.

(** C9. [enumerate] of StorageFirefoxOS ignores its path: whatever the
    path, it is the enumeration of the whole storage. *)
Theorem C9_enumerate_ignores_path (this : StorageFirefoxOS.t)
        (p1 p2 : string) :
  StorageFirefoxOS.enumerate this p1 = StorageFirefoxOS.enumerate this p2
  /\ StorageFirefoxOS.enumerate this p1
     = DeviceStorage.enumerate (StorageFirefoxOS._storage this) None.
Proof. split; reflexivity. Qed.

(** A path passes the test of [get] exactly when it begins with
    [file://]. *)
Lemma file_prefix_test (p : string) :
  String.eqb (JS.substr p 0 7) "file://" = true ->
  exists q, p = ("file://" ++ q)%string.
Proof.
  intros H. apply String.eqb_eq in H. unfold JS.substr in H.
  destruct p as [|c1 [|c2 [|c3 [|c4 [|c5 [|c6 [|c7 q]]]]]]];
    cbn in H; try discriminate H.
  exists q. destruct q; cbn in H; injection H; intros; subst; reflexivity.
Qed.

(** C10, as the specification states it, fails for a path that itself
    begins with [file://]: [get] strips one prefix only. *)
Lemma C10_prefix_counterexample :
  ~ (forall (this : StoragePhoneGap.t) (p : string),
        StoragePhoneGap.request
          (StoragePhoneGap.get FileError.html5 this ("file://" ++ p))
        = StoragePhoneGap.request
            (StoragePhoneGap.get FileError.html5 this p)).
Proof.
  intros H. specialize (H Samples.oneFile "file:///sdcard/wiki.zim").
  discriminate H.
Qed.

(** C10, amended. [get("file://" + p)] hands [p] to [root.getFile] and
    returns the promise of looking [p] up; for every path [p] that does
    not itself begin with [file://], [get(p)] hands [p] over unchanged, so
    that both calls make the same request and return the same promise. *)
Theorem C10_get_strips_one_prefix (FileError : FileError.constants)
        (this : StoragePhoneGap.t) (p : string) :
  StoragePhoneGap.request
    (StoragePhoneGap.get FileError this ("file://" ++ p))
  = (p, FileSystem.mkFlags false false)
  /\ StoragePhoneGap.promise
       (StoragePhoneGap.get FileError this ("file://" ++ p))
     = Spec.lookup FileError this p
  /\ ((forall q, p <> ("file://" ++ q)%string) ->
      StoragePhoneGap.request (StoragePhoneGap.get FileError this p)
      = (p, FileSystem.mkFlags false false)
      /\ StoragePhoneGap.request
           (StoragePhoneGap.get FileError this ("file://" ++ p))
         = StoragePhoneGap.request (StoragePhoneGap.get FileError this p)
      /\ StoragePhoneGap.promise
           (StoragePhoneGap.get FileError this ("file://" ++ p))
         = StoragePhoneGap.promise (StoragePhoneGap.get FileError this p)).
Proof.
  assert (E1 : StoragePhoneGap.request
                 (StoragePhoneGap.get FileError this ("file://" ++ p))
               = (p, FileSystem.mkFlags false false)).
  { rewrite get_request.
    replace (JS.substr ("file://" ++ p) 0 7) with "file://"
      by (symmetry; apply (substring_prefix "file://" p)).
    rewrite String.eqb_refl. now rewrite substr_from_prefix. }
  split; [exact E1|]. split.
  - now rewrite get_promise, E1.
  - intros Hp.
    assert (E2 : StoragePhoneGap.request (StoragePhoneGap.get FileError this p)
                 = (p, FileSystem.mkFlags false false)).
    { rewrite get_request.
      destruct (String.eqb (JS.substr p 0 7) "file://") eqn:E;
        [|reflexivity].
      apply file_prefix_test in E. destruct E as [q E].
      destruct (Hp q E). }
    split; [exact E2|]. split; [congruence|].
    now rewrite !get_promise, E1, E2.
Qed.

Lemma C10_get_strips_one_prefix_witness :
  StoragePhoneGap.promise
    (StoragePhoneGap.get FileError.html5 Samples.oneFile
                         ("file://" ++ "/sdcard/wiki.zim"))
  = StoragePhoneGap.promise
      (StoragePhoneGap.get FileError.html5 Samples.oneFile "/sdcard/wiki.zim").
Proof.
  apply (proj2 (proj2 (C10_get_strips_one_prefix
                         FileError.html5 Samples.oneFile
                         "/sdcard/wiki.zim"))).
  intros q E. discriminate E.
Defined.

(* ===================================================================== *)
(** * Further properties of the code *)
(* ===================================================================== *)

(** ** The cursor scan *)

Lemma pushed_length (file : JS.File.t) :
  List.length (StorageFirefoxOS.pushed file)
  = if Spec.isMarker (JS.File.name file)
       || Spec.isArchiveFile (JS.File.name file)
    then 1 else 0.
Proof.
  unfold StorageFirefoxOS.pushed, Spec.isMarker.
  rewrite regexpZIMFileName_test_spec. fold (Spec.isArchiveFile (JS.File.name file)).
  destruct (util.endsWith (JS.File.name file) "titles.idx"); [reflexivity|].
  destruct (Spec.isArchiveFile (JS.File.name file)); reflexivity.
Qed.

(** Every cursor is a run of files, followed by nothing, by the end of the
    enumeration or by an error. *)
Lemma cursor_cases (cursor : DeviceStorage.DOMCursor) :
  exists files,
    cursor = Spec.fileEvents files
    \/ (exists rest,
           cursor = Spec.fileEvents files
                    ++ DeviceStorage.CursorSuccess None :: rest)
    \/ (exists error rest,
           cursor = Spec.fileEvents files
                    ++ DeviceStorage.CursorError error :: rest).
Proof.
  induction cursor as [|ev cursor IH].
  - exists []. now left.
  - destruct ev as [[file|]|error].
    + destruct IH as [files [->|[[rest ->]|(error & rest & ->)]]];
        exists (file :: files).
      * now left.
      * right. left. now exists rest.
      * right. right. now exists error, rest.
    + exists []. right. left. now exists cursor.
    + exists []. right. right. now exists error, cursor.
Qed.

(** X1. When the cursor of a StorageFirefoxOS reports files and then the
    end of the enumeration, [scanForArchives] resolves with what the files
    push, in the order of the cursor: one entry for each file that is a
    marker or an archive file, none for the others. Events after the end
    change nothing. *)
Theorem cursor_scan_one_entry_per_match
        (this : StorageFirefoxOS.t) (files : list JS.File.t)
        (rest : DeviceStorage.DOMCursor) :
  DeviceStorage.enumerate (StorageFirefoxOS._storage this) None
  = Spec.fileEvents files ++ DeviceStorage.CursorSuccess None :: rest ->
  StorageFirefoxOS.scanForArchives this
  = JS.Resolved (flat_map StorageFirefoxOS.pushed files)
  /\ List.length (flat_map StorageFirefoxOS.pushed files)
     = List.length
         (filter (fun file => Spec.isMarker (JS.File.name file)
                              || Spec.isArchiveFile (JS.File.name file))
                 files).
Proof.
  intros H. split.
  - unfold StorageFirefoxOS.scanForArchives. rewrite H, drive_files.
    reflexivity.
  - clear H. induction files as [|file files IH]; [reflexivity|].
    cbn [flat_map filter]. rewrite length_app, pushed_length, IH.
    destruct (Spec.isMarker _ || Spec.isArchiveFile _); reflexivity.
Qed.

Lemma cursor_scan_one_entry_per_match_witness :
  StorageFirefoxOS.scanForArchives Samples.cardFirefoxOS
  = JS.Resolved
      (flat_map StorageFirefoxOS.pushed
                (map JS.File.mk Samples.archiveNames))
  /\ List.length (flat_map StorageFirefoxOS.pushed
                           (map JS.File.mk Samples.archiveNames))
     = List.length
         (filter (fun file => Spec.isMarker (JS.File.name file)
                              || Spec.isArchiveFile (JS.File.name file))
                 (map JS.File.mk Samples.archiveNames)).
Proof.
  apply (cursor_scan_one_entry_per_match
           Samples.cardFirefoxOS (map JS.File.mk Samples.archiveNames) []).
  reflexivity.
Defined.

(** X2. The cursor scan has no time-out: its promise stays pending
    exactly when the cursor reports files only, and neither the end of the
    enumeration nor an error. *)
Theorem cursor_scan_pending_iff (this : StorageFirefoxOS.t) :
  StorageFirefoxOS.scanForArchives this = JS.Pending
  <-> exists files,
        DeviceStorage.enumerate (StorageFirefoxOS._storage this) None
        = Spec.fileEvents files.
Proof.
  unfold StorageFirefoxOS.scanForArchives. split.
  - intros H.
    destruct (cursor_cases (DeviceStorage.enumerate
                              (StorageFirefoxOS._storage this) None))
      as [files [E|[[rest E]|(error & rest & E)]]].
    + now exists files.
    + rewrite E, drive_files in H. discriminate H.
    + rewrite E, drive_files in H. discriminate H.
  - intros [files E]. rewrite E, <- (app_nil_r (Spec.fileEvents files)).
    rewrite drive_files. reflexivity.
Qed.

Lemma cursor_scan_pending_iff_witness :
  StorageFirefoxOS.scanForArchives Samples.hungCard = JS.Pending.
Proof.
  apply (proj2 (cursor_scan_pending_iff Samples.hungCard)).
  exists [JS.File.mk "c/titles.idx"]. reflexivity.
Defined.

(** X3. The two rules of the cursor scan exclude each other: a name that
    ends in [titles.idx] never matches [/\.zim(aa)?$/i], so the order of
    the two tests in [cursor.onsuccess] decides nothing. *)
Theorem marker_never_matches_regexp (name : string) :
  util.endsWith name "titles.idx" = true ->
  StorageFirefoxOS.regexpZIMFileName_test name = false.
Proof.
  intros H. rewrite regexpZIMFileName_test_spec.
  now apply marker_not_archive.
Qed.

Lemma marker_never_matches_regexp_witness :
  StorageFirefoxOS.regexpZIMFileName_test "wikipedia.zim/titles.idx" = false.
Proof.
  apply (marker_never_matches_regexp "wikipedia.zim/titles.idx").
  reflexivity.
Defined.

(** ** The tree scan *)

Lemma visitOrder_unfold (d : FileSystem.DirectoryEntry) :
  Spec.visitOrder d
  = d :: match FileSystem.readEntries d with
         | FileSystem.Success entries =>
             flat_map Spec.visitOrder (rev (Spec.subdirectories entries))
         | _ => []
         end.
Proof.
  destruct d as [n p [entries| |]]; cbn [Spec.visitOrder FileSystem.readEntries];
    try reflexivity.
  f_equal. induction entries as [|[name|d'] l IH]; [reflexivity|exact IH|].
  rewrite IH. cbn [Spec.subdirectories flat_map app rev].
  fold (Spec.subdirectories l).
  rewrite flat_map_app. cbn [flat_map]. now rewrite app_nil_r.
Qed.

Lemma allListed_unfold (d : FileSystem.DirectoryEntry) :
  Spec.allListed d
  = match FileSystem.readEntries d with
    | FileSystem.Success entries =>
        forallb Spec.allListed (Spec.subdirectories entries)
    | _ => false
    end.
Proof.
  destruct d as [n p [entries| |]]; cbn [Spec.allListed FileSystem.readEntries];
    try reflexivity.
  induction entries as [|[name|d'] l IH]; [reflexivity|exact IH|].
  rewrite IH. reflexivity.
Qed.

Lemma forallb_rev {A} (f : A -> bool) (l : list A) :
  forallb f (rev l) = forallb f l.
Proof.
  induction l as [|a l IH]; [reflexivity|].
  cbn [rev forallb]. rewrite forallb_app, IH. cbn [forallb].
  rewrite andb_true_r. apply andb_comm.
Qed.

Section TreeWalk.

Variable FileError : FileError.constants.

Local Abbreviation iteration := (StoragePhoneGap.iteration FileError).

(** On directories that all answer, the stack machine lists them in the
    order of [visitOrder] and resolves with what their files push. *)
Lemma iteration_walk (fuel : nat) (st : StoragePhoneGap.ScanState) :
  Spec.stackCount (StoragePhoneGap.stack st) < fuel ->
  StoragePhoneGap.deferred st = JS.Pending ->
  forallb Spec.allListed (StoragePhoneGap.stack st) = true ->
  let order := flat_map Spec.visitOrder (StoragePhoneGap.stack st) in
  let found := StoragePhoneGap.directories st ++ flat_map Spec.emitted order in
  iteration fuel st
  = Some (StoragePhoneGap.mkScan found [] (JS.Resolved found)
                                 (StoragePhoneGap.listed st ++ order)).
Proof.
  revert st. induction fuel as [|fuel IH]; intros st Hf Hp Ha; [lia|].
  destruct st as [dirs [|top rest] def listed];
    cbn [StoragePhoneGap.iteration StoragePhoneGap.stack
         StoragePhoneGap.deferred StoragePhoneGap.listed
         StoragePhoneGap.directories] in *; subst def.
  - cbn. now rewrite !app_nil_r.
  - cbn [forallb] in Ha. apply andb_true_iff in Ha. destruct Ha as [Ht Hr].
    rewrite allListed_unfold in Ht.
    destruct (FileSystem.readEntries top) as [entries|error|] eqn:Hread;
      try discriminate.
    unfold StoragePhoneGap.dirReaderSuccess.
    cbn [StoragePhoneGap.stack]. rewrite fold_visit.
    cbn [StoragePhoneGap.stack StoragePhoneGap.directories
         StoragePhoneGap.deferred StoragePhoneGap.listed].
    rewrite IH;
      cbn [StoragePhoneGap.stack StoragePhoneGap.directories
           StoragePhoneGap.deferred StoragePhoneGap.listed].
    + cbn [flat_map]. rewrite (visitOrder_unfold top), Hread.
      cbn [flat_map app]. unfold Spec.emitted at 3 5. rewrite Hread.
      rewrite !flat_map_app, <- !app_assoc. reflexivity.
    + rewrite stackCount_app, stackCount_rev.
      unfold Spec.stackCount in Hf. simpl map in Hf. simpl list_sum in Hf.
      rewrite countDirectories_unfold, Hread in Hf.
      unfold Spec.stackCount at 1. fold (Spec.countEntries entries).
      unfold Spec.stackCount. lia.
    + reflexivity.
    + rewrite forallb_app, forallb_rev, Ht, Hr. reflexivity.
Qed.

(** A walk that resolves has found every directory on its stack, with
    all they contain, answering. *)
Lemma iteration_resolved_all_listed (fuel : nat)
      (st st' : StoragePhoneGap.ScanState) (l : list string) :
  StoragePhoneGap.deferred st = JS.Pending ->
  iteration fuel st = Some st' ->
  StoragePhoneGap.deferred st' = JS.Resolved l ->
  forallb Spec.allListed (StoragePhoneGap.stack st) = true.
Proof.
  revert st. induction fuel as [|fuel IH]; intros st Hp H Hres;
    [discriminate|].
  destruct st as [dirs [|top rest] def listed];
    cbn [StoragePhoneGap.iteration StoragePhoneGap.stack
         StoragePhoneGap.deferred StoragePhoneGap.listed
         StoragePhoneGap.directories] in *; subst def; [reflexivity|].
  destruct (FileSystem.readEntries top) as [entries|error|] eqn:Hread.
  - apply IH in H; [| |assumption].
    + unfold StoragePhoneGap.dirReaderSuccess in H.
      cbn [StoragePhoneGap.stack] in H. rewrite fold_visit in H.
      cbn [StoragePhoneGap.stack] in H.
      rewrite forallb_app, forallb_rev in H.
      apply andb_true_iff in H. destruct H as [Hs Hr].
      cbn [forallb]. now rewrite allListed_unfold, Hread, Hs, Hr.
    + unfold StoragePhoneGap.dirReaderSuccess.
      cbn [StoragePhoneGap.stack]. now rewrite fold_visit.
  - injection H as <-. discriminate Hres.
  - injection H as <-. discriminate Hres.
Qed.

(** The walk lists no more directories than its stack holds, with all
    they contain. *)
Lemma iteration_listing_bound (fuel : nat)
      (st st' : StoragePhoneGap.ScanState) :
  iteration fuel st = Some st' ->
  List.length (StoragePhoneGap.listed st')
  <= List.length (StoragePhoneGap.listed st)
     + Spec.stackCount (StoragePhoneGap.stack st).
Proof.
  revert st. induction fuel as [|fuel IH]; intros st H; [discriminate|].
  destruct st as [dirs [|top rest] def listed];
    cbn [StoragePhoneGap.iteration StoragePhoneGap.stack
         StoragePhoneGap.deferred StoragePhoneGap.listed
         StoragePhoneGap.directories] in *.
  - injection H as <-. cbn. lia.
  - unfold Spec.stackCount. simpl map. simpl list_sum.
    rewrite countDirectories_unfold.
    destruct (FileSystem.readEntries top) as [entries|error|] eqn:Hread.
    + apply IH in H. unfold StoragePhoneGap.dirReaderSuccess in H.
      cbn [StoragePhoneGap.stack] in H. rewrite fold_visit in H.
      cbn [StoragePhoneGap.stack StoragePhoneGap.listed] in H.
      rewrite stackCount_app, stackCount_rev, length_app in H.
      cbn [List.length] in H. unfold Spec.stackCount at 1 in H.
      fold (Spec.countEntries entries) in H. unfold Spec.stackCount in H.
      lia.
    + injection H as <-. cbn. rewrite length_app. cbn. lia.
    + injection H as <-. cbn. rewrite length_app. cbn. lia.
Qed.

End TreeWalk.

Lemma length_visitOrder (d : FileSystem.DirectoryEntry) :
  List.length (Spec.visitOrder d) = FileSystem.countDirectories d.
Proof.
  remember (FileSystem.countDirectories d) as n eqn:Hn.
  assert (Hle : FileSystem.countDirectories d <= n) by lia.
  rewrite Hn. clear Hn. revert d Hle.
  induction n as [|n IH]; intros d Hle.
  - rewrite countDirectories_unfold in Hle. lia.
  - rewrite visitOrder_unfold, countDirectories_unfold. cbn [List.length].
    f_equal. rewrite countDirectories_unfold in Hle.
    destruct (FileSystem.readEntries d) as [entries| |]; try reflexivity.
    unfold Spec.countEntries in *.
    fold (Spec.stackCount (Spec.subdirectories entries)) in *.
    rewrite <- stackCount_rev in *.
    induction (rev (Spec.subdirectories entries)) as [|d' l IHl];
      [reflexivity|].
    unfold Spec.stackCount in *. simpl map in *. simpl list_sum in *.
    cbn [flat_map]. rewrite length_app, IH, IHl by lia. reflexivity.
Qed.

(** The run of the tree scan on a tree whose directories all answer. *)
Lemma run_all_listed
      (FileError : FileError.constants) (this : StoragePhoneGap.t) :
  let root := FileSystem.root (StoragePhoneGap._storage this) in
  Spec.allListed root = true ->
  exists st,
    StoragePhoneGap.run FileError this = Some st
    /\ StoragePhoneGap.listed st = Spec.visitOrder root
    /\ List.length (StoragePhoneGap.listed st)
       = FileSystem.countDirectories root
    /\ StoragePhoneGap.stack st = []
    /\ StoragePhoneGap.scanForArchives FileError this
       = JS.Resolved (flat_map Spec.emitted (Spec.visitOrder root)).
Proof.
  intros root Ha.
  pose proof (iteration_walk FileError
                (S (FileSystem.countDirectories root))
                (StoragePhoneGap.start this)) as H.
  cbn [StoragePhoneGap.start StoragePhoneGap.stack StoragePhoneGap.deferred
       StoragePhoneGap.listed StoragePhoneGap.directories flat_map forallb
       app] in H.
  fold root in H. rewrite app_nil_r, Ha in H.
  specialize (H ltac:(unfold Spec.stackCount; cbn; lia) eq_refl eq_refl).
  eexists. unfold StoragePhoneGap.scanForArchives, StoragePhoneGap.run.
  fold root. rewrite H. cbn. repeat split. apply length_visitOrder.
Qed.

(** X4. On a tree whose directories all answer their listing, the tree
    scan lists every directory exactly once, a directory before its
    sub-directories and the sub-directory listed last first, and resolves
    with what the files of each directory push, in that order. *)
Theorem tree_scan_visits_each_directory_once
        (FileError : FileError.constants) (this : StoragePhoneGap.t) :
  let root := FileSystem.root (StoragePhoneGap._storage this) in
  Spec.allListed root = true ->
  exists st,
    StoragePhoneGap.run FileError this = Some st
    /\ StoragePhoneGap.listed st = Spec.visitOrder root
    /\ List.length (StoragePhoneGap.listed st)
       = FileSystem.countDirectories root
    /\ StoragePhoneGap.stack st = []
    /\ StoragePhoneGap.scanForArchives FileError this
       = JS.Resolved (flat_map Spec.emitted (Spec.visitOrder root)).
Proof. exact (run_all_listed FileError this). Qed.

Lemma tree_scan_visits_each_directory_once_witness :
  exists st,
    StoragePhoneGap.run FileError.html5 Samples.library = Some st
    /\ StoragePhoneGap.listed st
       = Spec.visitOrder
           (FileSystem.root (StoragePhoneGap._storage Samples.library))
    /\ List.length (StoragePhoneGap.listed st)
       = FileSystem.countDirectories
           (FileSystem.root (StoragePhoneGap._storage Samples.library))
    /\ StoragePhoneGap.stack st = []
    /\ StoragePhoneGap.scanForArchives FileError.html5 Samples.library
       = JS.Resolved
           (flat_map Spec.emitted
              (Spec.visitOrder
                 (FileSystem.root
                    (StoragePhoneGap._storage Samples.library)))).
Proof.
  apply (tree_scan_visits_each_directory_once FileError.html5
                                              Samples.library).
  reflexivity.
Defined.

Example library_scan :
  StoragePhoneGap.scanForArchives FileError.html5 Samples.library
  = JS.Resolved ["/"; "/b/"; "/b/c/x.zim"; "/a/wiki.zim"].
Proof. reflexivity. Qed.

(** X5. The tree scan resolves exactly when every directory of the tree
    answers its listing: one directory that fails or never answers,
    however deep, keeps the whole scan from resolving. *)
Theorem tree_scan_resolves_iff
        (FileError : FileError.constants) (this : StoragePhoneGap.t)
        (l : list string) :
  let root := FileSystem.root (StoragePhoneGap._storage this) in
  StoragePhoneGap.scanForArchives FileError this = JS.Resolved l
  <-> Spec.allListed root = true
      /\ l = flat_map Spec.emitted (Spec.visitOrder root).
Proof.
  intros root. split.
  - intros H.
    assert (Ha : Spec.allListed root = true).
    { unfold StoragePhoneGap.scanForArchives in H.
      destruct (run_returns FileError this) as [st Hst]. rewrite Hst in H.
      pose proof (iteration_resolved_all_listed
                    FileError _ (StoragePhoneGap.start this) st l
                    eq_refl Hst H) as K.
      cbn in K. now rewrite andb_true_r in K. }
    split; [exact Ha|].
    destruct (run_all_listed FileError this Ha)
      as (st & _ & _ & _ & _ & E).
    rewrite E in H. injection H as <-. reflexivity.
  - intros [Ha ->].
    destruct (run_all_listed FileError this Ha)
      as (st & _ & _ & _ & _ & E).
    exact E.
Qed.

Lemma tree_scan_resolves_iff_witness :
  Spec.allListed
    (FileSystem.root (StoragePhoneGap._storage Samples.library)) = true
  /\ ["/"; "/b/"; "/b/c/x.zim"; "/a/wiki.zim"]
     = flat_map Spec.emitted
         (Spec.visitOrder
            (FileSystem.root (StoragePhoneGap._storage Samples.library))).
Proof.
  apply (proj1 (tree_scan_resolves_iff
                  FileError.html5 Samples.library
                  ["/"; "/b/"; "/b/c/x.zim"; "/a/wiki.zim"])).
  reflexivity.
Defined.

(** X6. Whether it resolves, rejects or stalls, the tree scan makes at
    most as many listing calls as the tree has directories. *)
Theorem tree_scan_listing_calls_bounded
        (FileError : FileError.constants) (this : StoragePhoneGap.t) :
  exists st,
    StoragePhoneGap.run FileError this = Some st
    /\ List.length (StoragePhoneGap.listed st)
       <= FileSystem.countDirectories
            (FileSystem.root (StoragePhoneGap._storage this)).
Proof.
  destruct (run_returns FileError this) as [st Hst].
  exists st. split; [exact Hst|].
  apply iteration_listing_bound in Hst.
  unfold Spec.stackCount in Hst. cbn in Hst. lia.
Qed.

(** ** Errors and file access of StoragePhoneGap *)

(** X7. When the five constants of [FileError] are distinct, as in the
    File API, [_errorCodeToString] is exact: it gives the name of a
    constant exactly for the code of that constant, and ['Unknown Error']
    exactly for the codes that are none of the five. *)
Theorem errorCodeToString_exact (FileError : FileError.constants)
        (code : Z) :
  let s := StoragePhoneGap._errorCodeToString FileError code in
  let known := [FileError.QUOTA_EXCEEDED_ERR FileError;
                FileError.NOT_FOUND_ERR FileError;
                FileError.SECURITY_ERR FileError;
                FileError.INVALID_MODIFICATION_ERR FileError;
                FileError.INVALID_STATE_ERR FileError] in
  NoDup known ->
  (s = "QUOTA_EXCEEDED_ERR"
   <-> code = FileError.QUOTA_EXCEEDED_ERR FileError)
  /\ (s = "NOT_FOUND_ERR" <-> code = FileError.NOT_FOUND_ERR FileError)
  /\ (s = "SECURITY_ERR" <-> code = FileError.SECURITY_ERR FileError)
  /\ (s = "INVALID_MODIFICATION_ERR"
      <-> code = FileError.INVALID_MODIFICATION_ERR FileError)
  /\ (s = "INVALID_STATE_ERR"
      <-> code = FileError.INVALID_STATE_ERR FileError)
  /\ (s = "Unknown Error" <-> ~ In code known).
Proof.
  intros s known Hnd. subst s known.
  unfold StoragePhoneGap._errorCodeToString.
  destruct FileError as [q nf se im is_]. cbn [FileError.QUOTA_EXCEEDED_ERR
    FileError.NOT_FOUND_ERR FileError.SECURITY_ERR
    FileError.INVALID_MODIFICATION_ERR FileError.INVALID_STATE_ERR] in *.
  assert (Hd : q <> nf /\ q <> se /\ q <> im /\ q <> is_ /\ nf <> se
               /\ nf <> im /\ nf <> is_ /\ se <> im /\ se <> is_
               /\ im <> is_).
  { repeat match goal with
           | H : NoDup (_ :: _) |- _ => inversion H; subst; clear H
           end.
    cbn [In] in *. repeat split; intros E; subst; tauto. }
  clear Hnd. destruct Hd as (? & ? & ? & ? & ? & ? & ? & ? & ? & ?).
  cbn [In].
  destruct (Z.eqb_spec code q);
    [|destruct (Z.eqb_spec code nf);
      [|destruct (Z.eqb_spec code se);
        [|destruct (Z.eqb_spec code im);
          [|destruct (Z.eqb_spec code is_)]]]];
    repeat split; intros; subst;
    try reflexivity; try discriminate; try contradiction;
    try congruence; try tauto;
    try (intros [E|[E|[E|[E|[E|[]]]]]]; congruence).
Qed.

Lemma errorCodeToString_exact_witness :
  StoragePhoneGap._errorCodeToString FileError.html5 2 = "SECURITY_ERR"
  <-> 2%Z = FileError.SECURITY_ERR FileError.html5.
Proof.
  refine (proj1 (proj2 (proj2 (errorCodeToString_exact
                                 FileError.html5 2 _)))).
  cbn. repeat constructor; cbn; intros H;
    repeat (destruct H as [H|H]; [discriminate H|]); exact H.
Defined.

(** X8. [get] of StoragePhoneGap writes the path it was called with to
    the console, and asks [root.getFile] never to create the file. It
    resolves only when both [getFile] and [fileEntry.file] succeed, with
    the file of the latter; a failure of either rejects with the string of
    the error code, after a second console line with the code; when
    either calls nothing back the promise stays pending. *)
Theorem phonegap_get_outcome (FileError : FileError.constants)
        (this : StoragePhoneGap.t) (path : string) :
  let run := StoragePhoneGap.get FileError this path in
  let answer :=
    FileSystem.getFile (StoragePhoneGap._storage this)
                       (fst (StoragePhoneGap.request run))
                       (FileSystem.mkFlags false false) in
  snd (StoragePhoneGap.request run) = FileSystem.mkFlags false false
  /\ match StoragePhoneGap.promise run with
     | JS.Resolved file =>
         (exists fileEntry,
             answer = FileSystem.Success fileEntry
             /\ FileSystem.file fileEntry = FileSystem.Success file)
         /\ StoragePhoneGap.console run
            = [("Trying to access " ++ path)%string]
     | JS.Rejected reason =>
         exists error,
           (answer = FileSystem.Failure error
            \/ exists fileEntry,
                answer = FileSystem.Success fileEntry
                /\ FileSystem.file fileEntry = FileSystem.Failure error)
           /\ reason
              = JS.VString (StoragePhoneGap._errorCodeToString
                              FileError (FileError.code error))
           /\ StoragePhoneGap.console run
              = [("Trying to access " ++ path)%string;
                 ("Error code: "
                    ++ JS.numberToString (FileError.code error))%string]
     | JS.Pending =>
         (answer = FileSystem.NoCallback
          \/ exists fileEntry,
              answer = FileSystem.Success fileEntry
              /\ FileSystem.file fileEntry = FileSystem.NoCallback)
         /\ StoragePhoneGap.console run
            = [("Trying to access " ++ path)%string]
     end.
Proof.
  intros run answer. subst answer run. rewrite get_request. cbn [fst snd].
  split; [reflexivity|].
  unfold StoragePhoneGap.get.
  destruct (FileSystem.getFile _ _ _) as [[[file|error|]]|error|] eqn:E;
    cbn [StoragePhoneGap.promise StoragePhoneGap.console JS.resolve
         JS.reject FileSystem.file app].
  - split; [|reflexivity]. eexists. split; reflexivity.
  - exists error. repeat split. right. eexists. split; reflexivity.
  - split; [|reflexivity]. right. eexists. split; reflexivity.
  - exists error. repeat split. now left.
  - split; [|reflexivity]. now left.
Qed.

(** ** The multi-volume scan, whatever the storages do *)

Section Reporting.

Variable DOMError_toString : JS.DOMError.t -> string.
Variable promises : list (JS.Promise (list string)).

Local Abbreviation settle := (AbstractBackend.settle DOMError_toString promises).
Local Abbreviation Reported := (Spec.Reported DOMError_toString promises).

(** A counter at zero means that every promise has settled. *)
Lemma counted_zero_all_settled (st : AbstractBackend.State) (i : nat) :
  Spec.Counted promises st ->
  AbstractBackend.remaining st = 0 ->
  i < List.length promises ->
  In i (AbstractBackend.settled st).
Proof.
  intros (Hnd & Hb & Hc) H0 Hi.
  set (l := filter (Spec.resolvedAt promises) (AbstractBackend.settled st))
    in *.
  assert (Hincl : incl (seq 0 (List.length promises)) l).
  { apply NoDup_length_incl.
    - now apply NoDup_filter.
    - rewrite length_seq. lia.
    - intros j Hj. apply in_seq. apply filter_In in Hj.
      destruct Hj as [Hj _]. specialize (Hb j Hj). lia. }
  assert (Hin : In i l) by (apply Hincl, in_seq; lia).
  apply filter_In in Hin. tauto.
Qed.

(** While a promise has not resolved, the counter stays positive. *)
Lemma counted_unresolved_positive (st : AbstractBackend.State) (k : nat) :
  k < List.length promises ->
  Spec.resolvedAt promises k = false ->
  Spec.Counted promises st ->
  0 < AbstractBackend.remaining st.
Proof.
  intros Hk Hr Hc.
  destruct (Nat.eq_dec (AbstractBackend.remaining st) 0) as [E|]; [|lia].
  pose proof (counted_zero_all_settled st k Hc E Hk) as Hin.
  destruct Hc as (Hnd & Hb & Hc).
  assert (Hle : List.length
                  (k :: filter (Spec.resolvedAt promises)
                               (AbstractBackend.settled st))
                <= List.length promises).
  { apply bounded_length.
    - constructor; [|now apply NoDup_filter].
      intros H. apply filter_In in H. destruct H as [_ H]. congruence.
    - intros j [<-|Hj]; [assumption|]. apply filter_In in Hj. now apply Hb. }
  cbn [List.length] in Hle. lia.
Qed.

Lemma settle_reported (st : AbstractBackend.State) (i : nat) :
  Reported st -> Reported (settle st i).
Proof.
  intros [Hc Hm]. split; [now apply settle_counted|].
  unfold AbstractBackend.settle.
  destruct (existsb (Nat.eqb i) (AbstractBackend.settled st)) eqn:Ex;
    [assumption|].
  apply existsb_eqb_false in Ex.
  destruct (nth_error promises i) as [[|dirs|e]|] eqn:Hi; try assumption.
  - assert (Hlt : i < List.length promises) by (eapply resolved_lt; eauto).
    assert (Hz : AbstractBackend.master st = jQuery.MasterResolved -> False).
    { intros M. rewrite M in Hm. destruct Hm as [H0 _].
      destruct Ex. now apply counted_zero_all_settled. }
    destruct st as [ds settled rem m eff].
    cbn [AbstractBackend.master AbstractBackend.effects
         AbstractBackend.directories AbstractBackend.remaining
         AbstractBackend.settled] in *.
    destruct (Nat.eqb_spec (rem - 1) 0) as [E|E];
      unfold AbstractBackend.onAllResolved;
      cbn [AbstractBackend.master AbstractBackend.effects
           AbstractBackend.directories AbstractBackend.remaining];
      destruct m;
      cbn [AbstractBackend.master AbstractBackend.effects
           AbstractBackend.directories AbstractBackend.remaining];
      try exact Hm; try (destruct (Hz eq_refl)).
    subst eff. now split.
  - destruct st as [ds settled rem m eff].
    unfold AbstractBackend.onRejected.
    cbn [AbstractBackend.master AbstractBackend.effects
         AbstractBackend.directories AbstractBackend.remaining
         AbstractBackend.settled] in *.
    destruct m;
      cbn [AbstractBackend.master AbstractBackend.effects
           AbstractBackend.directories AbstractBackend.remaining];
      try exact Hm.
    now subst eff.
Qed.

Lemma init_reported : Reported (AbstractBackend.init promises).
Proof.
  split; [apply init_counted|].
  unfold AbstractBackend.init. destruct promises; cbn; auto.
Qed.

Lemma aggregate_reported (arrivals : list nat) :
  Reported (AbstractBackend.aggregate DOMError_toString promises arrivals).
Proof.
  unfold AbstractBackend.aggregate. apply fold_settle_invariant.
  - intros st i. apply settle_reported.
  - apply init_reported.
Qed.

(** Once the master has resolved, no arrival changes anything. *)
Lemma settle_after_resolution (st : AbstractBackend.State) (i : nat) :
  Reported st ->
  AbstractBackend.master st = jQuery.MasterResolved ->
  settle st i = st.
Proof.
  intros [Hc Hm] M. rewrite M in Hm. destruct Hm as [H0 _].
  unfold AbstractBackend.settle.
  destruct (existsb (Nat.eqb i) (AbstractBackend.settled st)) eqn:Ex;
    [reflexivity|].
  apply existsb_eqb_false in Ex.
  destruct (nth_error promises i) as [p|] eqn:Hi; [|reflexivity].
  destruct Ex. apply counted_zero_all_settled; try assumption.
  eapply resolved_lt; eauto.
Qed.

Lemma fold_settle_after_resolution (more : list nat)
      (st : AbstractBackend.State) :
  Reported st ->
  AbstractBackend.master st = jQuery.MasterResolved ->
  fold_left settle more st = st.
Proof.
  intros Hr M. induction more as [|i more IH]; [reflexivity|].
  cbn [fold_left]. now rewrite settle_after_resolution.
Qed.

(** Once the master has rejected, it stays so, and nothing more is done
    to the outside. *)
Lemma settle_after_rejection (st : AbstractBackend.State) (i : nat)
      (e : JS.Reason) :
  AbstractBackend.master st = jQuery.MasterRejected e ->
  AbstractBackend.master (settle st i) = jQuery.MasterRejected e
  /\ AbstractBackend.effects (settle st i) = AbstractBackend.effects st.
Proof.
  intros M. unfold AbstractBackend.settle.
  destruct (existsb _ _); [now split|].
  destruct st as [ds settled rem m eff].
  cbn [AbstractBackend.master AbstractBackend.effects
       AbstractBackend.directories AbstractBackend.remaining
       AbstractBackend.settled] in *. subst m.
  destruct (nth_error promises i) as [[|dirs|e']|]; try (now split).
  destruct (Nat.eqb _ 0); now split.
Qed.

Lemma fold_settle_after_rejection (more : list nat)
      (st : AbstractBackend.State) (e : JS.Reason) :
  AbstractBackend.master st = jQuery.MasterRejected e ->
  AbstractBackend.effects (fold_left settle more st)
  = AbstractBackend.effects st.
Proof.
  revert st. induction more as [|i more IH]; intros st M; [reflexivity|].
  cbn [fold_left].
  destruct (settle_after_rejection st i e M) as [M' E'].
  now rewrite (IH _ M').
Qed.

(** An arrival of a promise that did not reject, while some promise has
    not resolved, leaves the master pending. *)
Lemma settle_waiting (k : nat) (st : AbstractBackend.State) (i : nat) :
  k < List.length promises ->
  Spec.resolvedAt promises k = false ->
  (forall r, nth_error promises i <> Some (JS.Rejected r)) ->
  Spec.Counted promises st ->
  AbstractBackend.master st = jQuery.MasterPending ->
  AbstractBackend.effects st = [] ->
  AbstractBackend.master (settle st i) = jQuery.MasterPending
  /\ AbstractBackend.effects (settle st i) = [].
Proof.
  intros Hk Hr Hnr Hc M E.
  pose proof (settle_counted DOMError_toString promises st i Hc) as Hc'.
  pose proof (counted_unresolved_positive _ k Hk Hr Hc') as Hpos.
  unfold AbstractBackend.settle in *.
  destruct (existsb _ _); [now split|].
  destruct (nth_error promises i) as [[|dirs|e]|] eqn:Hi;
    try (now split).
  - destruct st as [ds settled rem m eff].
    cbn [AbstractBackend.master AbstractBackend.effects
         AbstractBackend.directories AbstractBackend.remaining
         AbstractBackend.settled] in *. subst m eff.
    destruct (Nat.eqb_spec (rem - 1) 0) as [E0|E0]; [|now split].
    unfold AbstractBackend.onAllResolved in Hpos. cbn in Hpos. lia.
  - destruct (Hnr e eq_refl).
Qed.

Lemma fold_settle_waiting (k : nat) (arrivals : list nat)
      (st : AbstractBackend.State) :
  k < List.length promises ->
  Spec.resolvedAt promises k = false ->
  (forall i r, In i arrivals -> nth_error promises i <> Some (JS.Rejected r)) ->
  Spec.Counted promises st ->
  AbstractBackend.master st = jQuery.MasterPending ->
  AbstractBackend.effects st = [] ->
  Spec.Counted promises (fold_left settle arrivals st)
  /\ AbstractBackend.master (fold_left settle arrivals st)
     = jQuery.MasterPending
  /\ AbstractBackend.effects (fold_left settle arrivals st) = [].
Proof.
  intros Hk Hr. revert st.
  induction arrivals as [|i l IH]; intros st Hnr Hc M E; [now cbn|].
  cbn [fold_left].
  destruct (settle_waiting k st i Hk Hr) as [M' E']; try assumption.
  { intros r. apply Hnr. now left. }
  apply IH; try assumption.
  - intros j r Hj. apply Hnr. now right.
  - now apply settle_counted.
Qed.

End Reporting.

Lemma settle_settled_incl (DOMError_toString : JS.DOMError.t -> string)
      (promises : list (JS.Promise (list string)))
      (st : AbstractBackend.State) (i j : nat) :
  In j (AbstractBackend.settled
          (AbstractBackend.settle DOMError_toString promises st i)) ->
  In j (AbstractBackend.settled st) \/ j = i.
Proof.
  unfold AbstractBackend.settle.
  destruct (existsb _ _); [now left|].
  destruct st as [ds settled rem m eff].
  cbn [AbstractBackend.master AbstractBackend.effects
       AbstractBackend.directories AbstractBackend.remaining
       AbstractBackend.settled].
  destruct (nth_error promises i) as [[|dirs|e]|]; try (now left).
  - destruct (Nat.eqb _ 0); unfold AbstractBackend.onAllResolved;
      destruct m; cbn [AbstractBackend.master AbstractBackend.settled];
      intros H; apply in_app_or in H; destruct H as [H|[<-|[]]]; auto.
  - unfold AbstractBackend.onRejected.
    destruct m; cbn [AbstractBackend.master AbstractBackend.settled];
      intros H; apply in_app_or in H; destruct H as [H|[<-|[]]]; auto.
Qed.

Lemma fold_settled_incl (DOMError_toString : JS.DOMError.t -> string)
      (promises : list (JS.Promise (list string))) (arrivals : list nat)
      (st : AbstractBackend.State) (j : nat) :
  In j (AbstractBackend.settled
          (fold_left (AbstractBackend.settle DOMError_toString promises)
                     arrivals st)) ->
  In j (AbstractBackend.settled st) \/ In j arrivals.
Proof.
  revert st. induction arrivals as [|i l IH]; intros st H; [now left|].
  cbn [fold_left] in H. apply IH in H. destruct H as [H|H].
  - apply settle_settled_incl in H. destruct H as [H| ->]; [now left|].
    right. now left.
  - right. now right.
Qed.

Lemma init_nonempty (promises : list (JS.Promise (list string))) (k : nat) :
  k < List.length promises ->
  AbstractBackend.init promises
  = AbstractBackend.mkState [] [] (List.length promises)
                            jQuery.MasterPending [].
Proof.
  unfold AbstractBackend.init. destruct promises; [cbn; lia|reflexivity].
Qed.

Lemma option_map_nth_error_lt {A B} (f : A -> B) (l : list A) (k : nat)
      (b : B) :
  option_map f (nth_error l k) = Some b -> k < List.length (map f l).
Proof.
  intros H. rewrite length_map. apply nth_error_Some.
  destruct (nth_error l k); [discriminate|discriminate H].
Qed.

(** X9. Without storages, [scanForArchives] calls the callback at once,
    with the empty list, and nothing afterwards. *)
Theorem scan_without_storages
        (FileError : FileError.constants)
        (DOMError_toString : JS.DOMError.t -> string)
        (arrivals : list nat) :
  AbstractBackend.scanForArchives FileError DOMError_toString [] arrivals
  = [AbstractBackend.CallbackFunction (Some [])].
Proof.
  unfold AbstractBackend.scanForArchives, AbstractBackend.aggregate.
  cbn [map]. rewrite fold_settle_after_resolution; try reflexivity.
  apply init_reported.
Qed.

(** X10. Whatever the storages do and in whatever order their promises
    settle, [scanForArchives] calls the callback at most once: it has done
    nothing yet, or called it once with a list, or alerted the user and
    called it once with [null]. *)
Theorem callback_called_at_most_once
        (FileError : FileError.constants)
        (DOMError_toString : JS.DOMError.t -> string)
        (storages : list AbstractBackend.Storage) (arrivals : list nat) :
  let effects :=
    AbstractBackend.scanForArchives FileError DOMError_toString
                                    storages arrivals in
  effects = []
  \/ (exists l, effects = [AbstractBackend.CallbackFunction (Some l)])
  \/ (exists error,
         effects
         = [AbstractBackend.Alert
              (AbstractBackend.alertMessage DOMError_toString error);
            AbstractBackend.CallbackFunction None]).
Proof.
  intros effects. subst effects. unfold AbstractBackend.scanForArchives.
  destruct (aggregate_reported
              DOMError_toString
              (map (AbstractBackend.storage_scanForArchives FileError)
                   storages) arrivals) as [_ H].
  destruct (AbstractBackend.master _) as [| |e].
  - now left.
  - right. left. destruct H as [_ H]. eauto.
  - right. right. eauto.
Qed.

(** X11. The multi-volume scan has no time-out: while the scan of some
    storage stays pending and none rejects, neither the callback nor the
    alert is ever called, whatever the other storages deliver. *)
Theorem pending_storage_stalls_scan
        (FileError : FileError.constants)
        (DOMError_toString : JS.DOMError.t -> string)
        (storages : list AbstractBackend.Storage) (arrivals : list nat)
        (k : nat) :
  option_map (AbstractBackend.storage_scanForArchives FileError)
             (nth_error storages k) = Some JS.Pending ->
  (forall i r,
      option_map (AbstractBackend.storage_scanForArchives FileError)
                 (nth_error storages i) <> Some (JS.Rejected r)) ->
  AbstractBackend.scanForArchives FileError DOMError_toString
                                  storages arrivals = [].
Proof.
  intros Hk Hnr. unfold AbstractBackend.scanForArchives.
  pose proof (option_map_nth_error_lt _ _ _ _ Hk) as Hlt.
  rewrite <- nth_error_map_scan in Hk.
  unfold AbstractBackend.aggregate.
  apply (fold_settle_waiting DOMError_toString _ k); try assumption.
  - unfold Spec.resolvedAt. now rewrite Hk.
  - intros i r _. rewrite nth_error_map_scan. apply Hnr.
  - apply init_counted.
  - now rewrite (init_nonempty _ k).
  - now rewrite (init_nonempty _ k).
Qed.

(** X12. First rejection wins: when the promise of storage [k] is the
    first rejected one to settle, the alert carries its error, and what
    settles afterwards, resolutions and rejections alike, changes nothing
    of what the user and the callback have seen. *)
Theorem first_rejection_wins
        (FileError : FileError.constants)
        (DOMError_toString : JS.DOMError.t -> string)
        (storages : list AbstractBackend.Storage)
        (before after : list nat) (k : nat) (reason : JS.Reason) :
  option_map (AbstractBackend.storage_scanForArchives FileError)
             (nth_error storages k) = Some (JS.Rejected reason) ->
  (forall i r,
      In i before ->
      option_map (AbstractBackend.storage_scanForArchives FileError)
                 (nth_error storages i) <> Some (JS.Rejected r)) ->
  AbstractBackend.scanForArchives FileError DOMError_toString storages
                                  (before ++ k :: after)
  = [AbstractBackend.Alert
       (AbstractBackend.alertMessage DOMError_toString reason);
     AbstractBackend.CallbackFunction None].
Proof.
  intros Hk Hnr. unfold AbstractBackend.scanForArchives.
  pose proof (option_map_nth_error_lt _ _ _ _ Hk) as Hlt.
  set (promises := map (AbstractBackend.storage_scanForArchives FileError)
                       storages) in *.
  assert (Hk' : nth_error promises k = Some (JS.Rejected reason))
    by (unfold promises; now rewrite nth_error_map_scan).
  assert (Hr : Spec.resolvedAt promises k = false)
    by (unfold Spec.resolvedAt; now rewrite Hk').
  unfold AbstractBackend.aggregate. rewrite fold_left_app.
  set (st := fold_left (AbstractBackend.settle DOMError_toString promises)
                       before (AbstractBackend.init promises)).
  destruct (fold_settle_waiting DOMError_toString promises k before
              (AbstractBackend.init promises) Hlt Hr)
    as (Hc & M & E).
  { intros i r Hi. unfold promises. rewrite nth_error_map_scan.
    now apply Hnr. }
  { apply init_counted. }
  { now rewrite (init_nonempty _ k). }
  { now rewrite (init_nonempty _ k). }
  fold st in Hc, M, E.
  assert (Hni : ~ In k (AbstractBackend.settled st)).
  { intros Hin. apply fold_settled_incl in Hin.
    rewrite (init_nonempty _ k Hlt) in Hin. destruct Hin as [[]|Hin].
    apply (Hnr k reason Hin Hk). }
  cbn [fold_left].
  assert (Hs : AbstractBackend.settle DOMError_toString promises st k
               = AbstractBackend.mkState
                   (AbstractBackend.directories st)
                   (AbstractBackend.settled st ++ [k])
                   (AbstractBackend.remaining st)
                   (jQuery.MasterRejected reason)
                   [AbstractBackend.Alert
                      (AbstractBackend.alertMessage DOMError_toString reason);
                    AbstractBackend.CallbackFunction None]).
  { unfold AbstractBackend.settle.
    destruct (existsb (Nat.eqb k) (AbstractBackend.settled st)) eqn:Ex;
      [apply existsb_eqb_true in Ex; contradiction|].
    rewrite Hk'. unfold AbstractBackend.onRejected.
    cbn [AbstractBackend.master AbstractBackend.effects
         AbstractBackend.directories AbstractBackend.remaining
         AbstractBackend.settled].
    now rewrite M, E. }
  rewrite Hs.
  rewrite (fold_settle_after_rejection DOMError_toString promises after _
                                       reason); reflexivity.
Qed.

(** X13. The array handed to the callback is final: once the callback
    has been called with a list, every promise has settled, so that no
    later arrival merges anything into the shared array or calls the
    callback again. *)
Theorem callback_list_is_final
        (FileError : FileError.constants)
        (DOMError_toString : JS.DOMError.t -> string)
        (storages : list AbstractBackend.Storage)
        (arrivals more : list nat) (l : list string) :
  let promises :=
    map (AbstractBackend.storage_scanForArchives FileError) storages in
  AbstractBackend.scanForArchives FileError DOMError_toString
                                  storages arrivals
  = [AbstractBackend.CallbackFunction (Some l)] ->
  AbstractBackend.directories
    (AbstractBackend.aggregate DOMError_toString promises
                               (arrivals ++ more)) = l
  /\ AbstractBackend.scanForArchives FileError DOMError_toString
                                     storages (arrivals ++ more)
     = [AbstractBackend.CallbackFunction (Some l)]
  /\ (forall i, i < List.length storages ->
                In i (AbstractBackend.settled
                        (AbstractBackend.aggregate DOMError_toString
                                                   promises arrivals))).
Proof.
  intros promises H. unfold AbstractBackend.scanForArchives in *.
  fold promises in H |- *.
  pose proof (aggregate_reported DOMError_toString promises arrivals)
    as Hrep.
  assert (M : AbstractBackend.master
                (AbstractBackend.aggregate DOMError_toString promises
                                           arrivals)
              = jQuery.MasterResolved).
  { destruct Hrep as [_ Hm].
    destruct (AbstractBackend.master _) as [| |e]; [|reflexivity|];
      rewrite H in Hm; discriminate Hm. }
  assert (E : AbstractBackend.aggregate DOMError_toString promises
                                        (arrivals ++ more)
              = AbstractBackend.aggregate DOMError_toString promises
                                          arrivals).
  { unfold AbstractBackend.aggregate at 1. rewrite fold_left_app.
    now apply fold_settle_after_resolution. }
  rewrite E. destruct Hrep as [Hc Hm]. rewrite M in Hm.
  destruct Hm as [H0 He]. rewrite H in He. injection He as He.
  split; [now symmetry|]. split; [exact H|].
  intros i Hi. apply (counted_zero_all_settled promises); try assumption.
  unfold promises. now rewrite length_map.
Qed.

Lemma pending_storage_stalls_scan_witness :
  AbstractBackend.scanForArchives FileError.html5 JS.DOMError.name
    [Samples.volumeA; Samples.volumeHung] [1; 0] = [].
Proof.
  apply (pending_storage_stalls_scan
           FileError.html5 JS.DOMError.name
           [Samples.volumeA; Samples.volumeHung] [1; 0] 1).
  - reflexivity.
  - intros [|[|[|i]]] r H; discriminate H.
Defined.

Lemma first_rejection_wins_witness :
  AbstractBackend.scanForArchives FileError.html5 JS.DOMError.name
    [Samples.volumeB; AbstractBackend.PhoneGap Samples.brokenTree;
     Samples.volumeA]
    ([2] ++ 1 :: [0])
  = [AbstractBackend.Alert
       (AbstractBackend.alertMessage JS.DOMError.name
                                     (JS.VString "SECURITY_ERR"));
     AbstractBackend.CallbackFunction None].
Proof.
  apply (first_rejection_wins
           FileError.html5 JS.DOMError.name
           [Samples.volumeB; AbstractBackend.PhoneGap Samples.brokenTree;
            Samples.volumeA]
           [2] [0] 1 (JS.VString "SECURITY_ERR")).
  - reflexivity.
  - intros i r [<-|[]] H. discriminate H.
Defined.

Lemma callback_list_is_final_witness :
  AbstractBackend.directories
    (AbstractBackend.aggregate JS.DOMError.name
       (map (AbstractBackend.storage_scanForArchives FileError.html5)
            [Samples.volumeA; Samples.volumeC])
       ([1; 0] ++ [0; 1; 5])) = ["/b/"; "/a/"]
  /\ AbstractBackend.scanForArchives FileError.html5 JS.DOMError.name
       [Samples.volumeA; Samples.volumeC] ([1; 0] ++ [0; 1; 5])
     = [AbstractBackend.CallbackFunction (Some ["/b/"; "/a/"])].
Proof.
  destruct (callback_list_is_final
              FileError.html5 JS.DOMError.name
              [Samples.volumeA; Samples.volumeC] [1; 0] [0; 1; 5]
              ["/b/"; "/a/"] eq_refl) as (H1 & H2 & _).
  split; [exact H1|exact H2].
Defined.

(** ** From the scan to the resolver *)

Lemma occurs_split (c : ascii) (s : string) :
  Spec.occurs c s = true ->
  exists d base, s = (d ++ String c base)%string
                 /\ Spec.occurs c base = false.
Proof.
  induction s as [|a s IH]; [discriminate|].
  cbn [Spec.occurs]. intros H.
  destruct (Spec.occurs c s) eqn:Hs.
  - destruct (IH eq_refl) as (d & base & -> & Hb).
    now exists (String a d), base.
  - rewrite orb_false_r in H. apply Ascii.eqb_eq in H. subst a.
    now exists "", s.
Qed.

Lemma pushed_marker_last_slash (dir base : string) :
  util.endsWith (dir ++ String "/" base) "titles.idx" = true ->
  Spec.occurs "/" base = false ->
  StorageFirefoxOS.pushed (JS.File.mk (dir ++ String "/" base))
  = [(dir ++ "/")%string].
Proof.
  intros He Ho. unfold StorageFirefoxOS.pushed. cbn [JS.File.name].
  rewrite He. unfold JS.lastIndexOf.
  rewrite lastIndexOf_from_last by assumption. cbn [Nat.add].
  destruct (Z.eqb_spec (Z.of_nat (String.length dir)) (-1)); [lia|].
  cbn [negb]. f_equal. unfold JS.substring, JS.length.
  rewrite length_append. cbn [String.length].
  rewrite Z.max_l, Z.min_l by lia. cbn [Z.to_nat].
  rewrite Z.max_l, Z.min_l by lia.
  rewrite Nat.min_l, Nat.max_r by lia.
  replace (Z.to_nat (Z.of_nat (String.length dir) + 1) - 0)
    with (String.length (dir ++ "/")) by (rewrite length_append; cbn; lia).
  change (dir ++ String "/" base)%string with (dir ++ ("/" ++ base))%string.
  rewrite <- append_assoc. apply substring_prefix.
Qed.

(** Whatever its name, a marker pushes one directory, which ends in a
    slash. *)
Lemma pushed_marker_directory (name : string) :
  util.endsWith name "titles.idx" = true ->
  exists directory,
    StorageFirefoxOS.pushed (JS.File.mk name) = [directory]
    /\ util.endsWith directory "/" = true.
Proof.
  intros He. destruct (Spec.occurs "/" name) eqn:Ho.
  - destruct (occurs_split _ _ Ho) as (d & base & -> & Hb).
    exists (d ++ "/")%string. split.
    + now apply pushed_marker_last_slash.
    + apply endsWith_append.
  - exists "/". split; [now apply pushed_marker_root|reflexivity].
Qed.

(** Strings that end in different characters end in different
    suffixes. *)
Lemma endsWith_last_differs (s p q : string) (a b : ascii) :
  a <> b ->
  util.endsWith s (p ++ String a "") = true ->
  util.endsWith s (q ++ String b "") = false.
Proof.
  intros Hab Hp.
  destruct (util.endsWith s (q ++ String b "")) eqn:Hq; [|reflexivity].
  apply endsWith_spec in Hp. destruct Hp as [u Hu].
  apply endsWith_spec in Hq. destruct Hq as [v Hv].
  assert (Ha : util.endsWith s (String a "") = true).
  { rewrite Hu, <- append_assoc, endsWith_snoc. apply Ascii.eqb_refl. }
  rewrite Hv, <- append_assoc, endsWith_snoc in Ha.
  apply Ascii.eqb_eq in Ha. congruence.
Qed.

(** X14. What the resolver makes of the entries of the cursor scan: an
    entry is opened as a ZIM archive exactly when it comes from a file
    whose name ends in [.zim] in lower case; the directory of a marker,
    and the archive files found under another spelling or as [.zimaa],
    are opened as local archives. *)
Theorem cursor_entries_resolved
        (storage : AbstractBackend.Storage) (file : JS.File.t)
        (entry : string) :
  In entry (StorageFirefoxOS.pushed file) ->
  AbstractBackend.loadArchiveFromDeviceStorage storage entry
  = if util.endsWith (JS.File.name file) ".zim"
    then AbstractBackend.ZIMArchive storage entry
    else AbstractBackend.LocalArchive_initializeFromDeviceStorage
           storage entry.
Proof.
  intros Hin. unfold AbstractBackend.loadArchiveFromDeviceStorage.
  destruct (util.endsWith (JS.File.name file) "titles.idx") eqn:Hm.
  - destruct (pushed_marker_directory
                (JS.File.name file) Hm) as (d & Hp & Hd).
    destruct file as [name]. cbn [JS.File.name] in *.
    rewrite Hp in Hin. destruct Hin as [<-|[]].
    assert (K1 : util.endsWith d ".zim" = false)
      by (apply (endsWith_last_differs d "" ".zi" "/" "m");
          [discriminate|exact Hd]).
    assert (K2 : util.endsWith name ".zim" = false)
      by (apply (endsWith_last_differs name "titles.id" ".zi" "x" "m");
          [discriminate|exact Hm]).
    now rewrite K1, K2.
  - unfold StorageFirefoxOS.pushed in Hin. rewrite Hm in Hin.
    destruct (StorageFirefoxOS.regexpZIMFileName_test _);
      [|destruct Hin].
    destruct Hin as [<-|[]]. reflexivity.
Qed.

Lemma cursor_entries_resolved_witness :
  AbstractBackend.loadArchiveFromDeviceStorage Samples.volumeA "wiki.zimaa"
  = AbstractBackend.LocalArchive_initializeFromDeviceStorage
      Samples.volumeA "wiki.zimaa".
Proof.
  apply (cursor_entries_resolved Samples.volumeA (JS.File.mk "wiki.zimaa")
                                 "wiki.zimaa").
  simpl. auto.
Defined.

(** X15. What the resolver makes of the entries of the tree scan: the
    directory pushed for a marker is opened as a local archive, and the
    path pushed for any other file as a ZIM archive. *)
Theorem tree_entries_resolved
        (storage : AbstractBackend.Storage)
        (dir : FileSystem.DirectoryEntry) (name entry : string) :
  In entry (StoragePhoneGap.pushed dir name) ->
  AbstractBackend.loadArchiveFromDeviceStorage storage entry
  = if util.endsWith name "titles.idx"
    then AbstractBackend.LocalArchive_initializeFromDeviceStorage
           storage entry
    else AbstractBackend.ZIMArchive storage entry.
Proof.
  intros Hin. unfold AbstractBackend.loadArchiveFromDeviceStorage.
  unfold StoragePhoneGap.pushed in Hin.
  destruct (util.endsWith name "titles.idx") eqn:Hm.
  - rewrite needs_slash_spec in Hin. destruct Hin as [<-|[]].
    assert (Hd : util.endsWith
                   (if negb (util.endsWith (FileSystem.fullPath dir) "/")
                    then (FileSystem.fullPath dir ++ "/")%string
                    else FileSystem.fullPath dir) "/" = true).
    { destruct (util.endsWith (FileSystem.fullPath dir) "/") eqn:E;
        cbn [negb]; [exact E|apply endsWith_append]. }
    match goal with
    | |- (if util.endsWith ?e ".zim" then _ else _) = _ =>
        assert (K : util.endsWith e ".zim" = false)
          by (apply (endsWith_last_differs e "" ".zi" "/" "m");
              [discriminate|exact Hd]);
        now rewrite K
    end.
  - destruct (util.endsWith name ".zim") eqn:Hz; [|destruct Hin].
    destruct Hin as [<-|[]].
    apply endsWith_spec in Hz. destruct Hz as [stem ->].
    change (FileSystem.fullPath dir ++ "/" ++ stem ++ ".zim")%string
      with (FileSystem.fullPath dir ++ ("/" ++ stem ++ ".zim"))%string.
    change ("/" ++ stem ++ ".zim")%string
      with (("/" ++ stem) ++ ".zim")%string.
    now rewrite <- append_assoc, endsWith_append.
Qed.

Lemma tree_entries_resolved_witness :
  AbstractBackend.loadArchiveFromDeviceStorage Samples.volumeB "/a/wiki.zim"
  = AbstractBackend.ZIMArchive Samples.volumeB "/a/wiki.zim".
Proof.
  apply (tree_entries_resolved
           Samples.volumeB
           (FileSystem.mkDirectoryEntry "a" "/a" FileSystem.NoCallback)
           "wiki.zim" "/a/wiki.zim").
  simpl. auto.
Defined.

(** ** One listing of the tree scan *)

Lemma phonegap_pushed_length (dir : FileSystem.DirectoryEntry)
      (name : string) :
  List.length (StoragePhoneGap.pushed dir name)
  = if util.endsWith name "titles.idx" || util.endsWith name ".zim"
    then 1 else 0.
Proof.
  unfold StoragePhoneGap.pushed.
  destruct (util.endsWith name "titles.idx"); [reflexivity|].
  destruct (util.endsWith name ".zim"); reflexivity.
Qed.

(** X16. [dirReaderSuccess] takes the listed directory off the stack and
    handles its listing in one go: every file whose name ends in
    [titles.idx] or [.zim] adds one entry, in the order of the listing,
    and no other file adds any; every sub-directory goes onto the stack,
    the last one on top, and adds no entry, whatever its name; the promise
    is left as it is. *)
Theorem dirReaderSuccess_batch
        (st : StoragePhoneGap.ScanState) (dir : FileSystem.DirectoryEntry)
        (rest : list FileSystem.DirectoryEntry)
        (entries : list FileSystem.Entry) :
  StoragePhoneGap.stack st = dir :: rest ->
  let st' := StoragePhoneGap.dirReaderSuccess st entries in
  StoragePhoneGap.directories st'
  = StoragePhoneGap.directories st
    ++ flat_map (fun '(d, name) => StoragePhoneGap.pushed d name)
                (Spec.filesOf dir entries)
  /\ List.length (StoragePhoneGap.directories st')
     = List.length (StoragePhoneGap.directories st)
       + List.length
           (filter (fun entry =>
                      match entry with
                      | FileSystem.IsFile name =>
                          util.endsWith name "titles.idx"
                          || util.endsWith name ".zim"
                      | FileSystem.IsDirectory _ => false
                      end) entries)
  /\ StoragePhoneGap.stack st' = rev (Spec.subdirectories entries) ++ rest
  /\ StoragePhoneGap.deferred st' = StoragePhoneGap.deferred st
  /\ StoragePhoneGap.listed st' = StoragePhoneGap.listed st.
Proof.
  intros Hs st'. subst st'. unfold StoragePhoneGap.dirReaderSuccess.
  rewrite Hs, fold_visit.
  cbn [StoragePhoneGap.directories StoragePhoneGap.stack
       StoragePhoneGap.deferred StoragePhoneGap.listed].
  repeat split. rewrite length_app. f_equal.
  induction entries as [|[name|d] l IH]; [reflexivity| |exact IH].
  cbn [Spec.filesOf flat_map app filter].
  fold (Spec.filesOf dir l).
  rewrite length_app, phonegap_pushed_length, IH.
  destruct (util.endsWith name "titles.idx" || util.endsWith name ".zim");
    reflexivity.
Qed.

Lemma dirReaderSuccess_batch_witness :
  StoragePhoneGap.stack
    (StoragePhoneGap.dirReaderSuccess
       (StoragePhoneGap.start Samples.library)
       [FileSystem.IsFile "titles.idx"; FileSystem.IsFile "foo.zim";
        FileSystem.IsFile "FOO.ZIM";
        FileSystem.IsDirectory Samples.unreadable])
  = rev (Spec.subdirectories
           [FileSystem.IsFile "titles.idx"; FileSystem.IsFile "foo.zim";
            FileSystem.IsFile "FOO.ZIM";
            FileSystem.IsDirectory Samples.unreadable]) ++ []
  /\ List.length
       (StoragePhoneGap.directories
          (StoragePhoneGap.dirReaderSuccess
             (StoragePhoneGap.start Samples.library)
             [FileSystem.IsFile "titles.idx"; FileSystem.IsFile "foo.zim";
              FileSystem.IsFile "FOO.ZIM";
              FileSystem.IsDirectory Samples.unreadable]))
     = 2.
Proof.
  destruct (dirReaderSuccess_batch
              (StoragePhoneGap.start Samples.library)
              (FileSystem.root (StoragePhoneGap._storage Samples.library))
              []
              [FileSystem.IsFile "titles.idx"; FileSystem.IsFile "foo.zim";
               FileSystem.IsFile "FOO.ZIM";
               FileSystem.IsDirectory Samples.unreadable]
              eq_refl) as (_ & H2 & H3 & _).
  split; [exact H3|exact H2].
Defined.
